(** * EduGenie: the plan-request pipeline of [tutor.py]

    A shallow embedding of the Streamlit script [tutor.py]: the cached course
    search ([search_courses]), the Groq wrapper ([GroqLLM._call]) and the
    pipeline block of [main] (prompt, completion, week sections, courses).

    Modelling conventions.
    - A Python [str] is a [string] holding the UTF-8 bytes of the text.
      Splitting and searching for ASCII patterns is the same on bytes and on
      code points. [str.strip] removes the UTF-8 encodings of the characters
      Python counts as whitespace. [str.lower] folds the letters A-Z; the
      case tables of the other scripts are not modelled, so statements
      about letter case are about these 26 letters.
    - A Python [dict] is a [gmap]; a missing key read with [d[k]] raises
      [KeyError], read with [d.get(k, v)] gives [v].
    - The session, the [st.cache_data] store, the wall clock, the queries sent
      to the search provider and the elements written to the page are fields
      of one [state] that every operation threads.
    - The two vendor SDKs are functions the definitions take as arguments. *)

From stdpp Require Import base strings gmap list pretty.
From Stdlib Require Import Ascii ZArith Lia.

Local Open Scope Z_scope.

(** ** Python string primitives *)

Module Str.

Definition code (c : ascii) : nat := nat_of_ascii c.

Definition isupper (c : ascii) : bool :=
  (Nat.leb 65 (code c) && Nat.leb (code c) 90)%bool.

(** [c.lower()] for the letters A-Z; every other byte, the bytes of the
    non-ASCII characters among them, is left as it is. *)
Definition lower_char (c : ascii) : ascii :=
  if isupper c then ascii_of_nat (code c + 32) else c.

(** [s.lower()] *)
Fixpoint lower (s : string) : string :=
  match s with
  | EmptyString => EmptyString
  | String c s' => String (lower_char c) (lower s')
  end.

(** [s.startswith(p)] *)
Fixpoint startswith (p s : string) : bool :=
  match p, s with
  | EmptyString, _ => true
  | String _ _, EmptyString => false
  | String a p', String b s' => if Ascii.eqb a b then startswith p' s' else false
  end.

(** [sub in s] *)
Fixpoint contains (sub s : string) : bool :=
  (startswith sub s ||
   match s with
   | EmptyString => false
   | String _ s' => contains sub s'
   end)%bool.

Definition cons_head (c : ascii) (l : list string) : list string :=
  match l with
  | [] => [String c EmptyString]
  | h :: t => String c h :: t
  end.

(** [s.split(sep)] for a non-empty [sep]: the leftmost occurrences, not
    overlapping. [skip] counts the characters of a matched separator that
    are still to be passed over. *)
Fixpoint split_go (sep : string) (skip : nat) (s : string) : list string :=
  match s with
  | EmptyString => [EmptyString]
  | String c s' =>
      match skip with
      | S k => split_go sep k s'
      | O =>
          if startswith sep s
          then EmptyString :: split_go sep (String.length sep - 1) s'
          else cons_head c (split_go sep 0 s')
      end
  end.

Definition split (sep s : string) : list string := split_go sep 0 s.

(** [sep.join(l)] *)
Fixpoint join (sep : string) (l : list string) : string :=
  match l with
  | [] => EmptyString
  | x :: rest =>
      match rest with
      | [] => x
      | _ :: _ => x +:+ sep +:+ join sep rest
      end
  end.

Definition is_empty (s : string) : bool :=
  match s with EmptyString => true | String _ _ => false end.

Fixpoint of_bytes (l : list nat) : string :=
  match l with
  | [] => EmptyString
  | n :: l' => String (ascii_of_nat n) (of_bytes l')
  end.

(** The characters [str.isspace] accepts, as their UTF-8 encodings:
    U+0009-000D, U+001C-001F, U+0020, U+0085, U+00A0, U+1680, U+2000-200A,
    U+2028, U+2029, U+202F, U+205F and U+3000. *)
Definition whitespace : list string :=
  map of_bytes
      [[9]; [10]; [11]; [12]; [13]; [28]; [29]; [30]; [31]; [32];
       [194; 133]; [194; 160]; [225; 154; 128];
       [226; 128; 128]; [226; 128; 129]; [226; 128; 130]; [226; 128; 131];
       [226; 128; 132]; [226; 128; 133]; [226; 128; 134]; [226; 128; 135];
       [226; 128; 136]; [226; 128; 137]; [226; 128; 138];
       [226; 128; 168]; [226; 128; 169]; [226; 128; 175];
       [226; 129; 159]; [227; 128; 128]]%nat.

(** The whitespace character the string starts with, if it starts with
    one. *)
Definition leading_space (s : string) : option string :=
  List.find (fun w => startswith w s) whitespace.

(** [s.lstrip()]. [skip] counts the bytes of a whitespace character that
    are still to be passed over. *)
Fixpoint lstrip_go (skip : nat) (s : string) : string :=
  match s with
  | EmptyString => EmptyString
  | String c s' =>
      match skip with
      | S k => lstrip_go k s'
      | O =>
          match leading_space s with
          | Some w => lstrip_go (String.length w - 1) s'
          | None => s
          end
      end
  end.

Definition lstrip (s : string) : string := lstrip_go 0 s.

(** Whitespace characters only (or nothing). *)
Definition blank (s : string) : bool := is_empty (lstrip s).

(** [s.rstrip()]: the string is cut where only whitespace remains. *)
Fixpoint rstrip (s : string) : string :=
  match s with
  | EmptyString => EmptyString
  | String c s' => if blank s then EmptyString else String c (rstrip s')
  end.

(** [s.strip()] *)
Definition strip (s : string) : string := rstrip (lstrip s).

(** [pre ++ sub ++ post]: [sub] occurs in the string. *)
Definition occurs_in (sub s : string) : Prop :=
  exists pre post : string, s = pre +:+ sub +:+ post.

(** The capital and the small form of each of the 26 letters. *)
Definition letter_cases : list (ascii * ascii) :=
  zip (String.list_ascii_of_string "ABCDEFGHIJKLMNOPQRSTUVWXYZ")
      (String.list_ascii_of_string "abcdefghijklmnopqrstuvwxyz").

(** Two characters that are the same letter in either case. *)
Definition same_letter (a b : ascii) : Prop :=
  a = b \/ (a, b) ∈ letter_cases \/ (b, a) ∈ letter_cases.

(** Two strings that differ only in the case of their letters. *)
Inductive same_modulo_case : string -> string -> Prop :=
| smc_nil : same_modulo_case EmptyString EmptyString
| smc_cons a b s t :
    same_letter a b -> same_modulo_case s t ->
    same_modulo_case (String a s) (String b t).

(** [sub] occurs in [s] when letter case is ignored. *)
Definition occurs_ignoring_case (sub s : string) : Prop :=
  exists pre mid post : string,
    s = pre +:+ mid +:+ post /\ same_modulo_case mid sub.

End Str.

(** ** Data model *)

(** The exceptions the pipeline can meet: a failure raised by a vendor SDK,
    and the [KeyError] of a result dictionary that lacks a key. *)
Inductive exn : Type :=
| UpstreamError (msg : string)
| KeyError (key : string).

(** [str(e)] *)
Definition str_exn (e : exn) : string :=
  match e with
  | UpstreamError msg => msg
  | KeyError key => "'" +:+ key +:+ "'"
  end.

(** The dictionary [search_courses] appends to [all_results]. *)
Record course : Type := Course {
  title : string;
  url : string;
  description : string;
  platform : string;
  rating : string
}.

(** One section of the learning plan as [main] renders it. *)
Record week_section : Type := WeekSection {
  week_num : string;
  week_content : string
}.

(** The Streamlit commands the script issues, in order. *)
#[warnings="-register-all"]
Inductive element : Type :=
| StProgress (percent : nat)
| StError (msg : string)
| StSuccess (msg : string)
| StInfo (msg : string)
| StMarkdown (body : string)
| StWrite (body : string)
| StSubheader (body : string)
| StTextArea (label : string)
| StExpander (label : string) (children : list element).

(** An entry of the [@st.cache_data] store: the time of insertion, the value
    the function returned, and the elements the function wrote when it
    ran, which Streamlit writes again whenever it serves the entry. *)
Record cache_entry : Type := CacheEntry {
  stored_at : Z;
  cached_value : list course;
  recorded : list element
}.

Record state : Type := State {
  (** [st.session_state.search_cache] *)
  search_cache : gmap string (list course);
  (** the store of [@st.cache_data] for [search_courses], keyed by the
      argument of the call *)
  cache_data_store : gmap string cache_entry;
  (** wall clock, in seconds *)
  clock : Z;
  (** the queries sent to the search provider, oldest first *)
  queries : list string;
  page : list element
}.

Definition emit (e : element) (s : state) : state :=
  State (search_cache s) (cache_data_store s) (clock s) (queries s) (page s ++ [e]).

Definition send_query (q : string) (s : state) : state :=
  State (search_cache s) (cache_data_store s) (clock s) (queries s ++ [q]) (page s).

(** [time.sleep(secs)] *)
Definition time_sleep (secs : Z) (s : state) : state :=
  State (search_cache s) (cache_data_store s) (clock s + secs) (queries s) (page s).

(** Time that passes between two calls. *)
Definition elapse (secs : Z) (s : state) : state :=
  State (search_cache s) (cache_data_store s) (clock s + secs) (queries s) (page s).

Definition set_search_cache (k : string) (v : list course) (s : state) : state :=
  State (<[k := v]> (search_cache s)) (cache_data_store s) (clock s) (queries s) (page s).

Definition set_cache_data (k : string) (v : list course) (els : list element)
    (s : state) : state :=
  State (search_cache s)
        (<[k := CacheEntry (clock s) v els]> (cache_data_store s))
        (clock s) (queries s) (page s).

(** The state after the elements of [els] are written to the page. *)
Definition write_all (els : list element) (s : state) : state :=
  State (search_cache s) (cache_data_store s) (clock s) (queries s)
        (page s ++ els).

(** A fresh session before any search. *)
Definition initial_state : state := State ∅ ∅ 0 [] [].

(** ** The vendor SDKs *)

(** What [tavily_client.search(query, search_depth=..., max_results=...)]
    does: it raises, or it returns a response whose ['results'] entry is a
    list of dictionaries. *)
Inductive search_outcome : Type :=
| SearchRaises (msg : string)
| SearchReturns (results : list (gmap string string)).

Definition tavily_client : Type := string -> string -> nat -> search_outcome.

(** The arguments of [client.chat.completions.create]. *)
Record chat_request : Type := ChatRequest {
  model : string;
  user_content : string;
  temperature : Z;
  max_tokens : Z;
  stop : option (list string)
}.

(** The completion call raises (left) or returns the text of the first
    choice (right). *)
Definition groq_client : Type := chat_request -> string + string.

(** ** [search_courses] *)

Definition platforms : list string := ["Udemy"; "Coursera"; "YouTube"].

Definition star : string := "⭐".

Definition rating_marker : string := star +:+ star +:+ star +:+ star +:+ star.

(** line 31 *)
Definition cache_key (topic : string) : string := "search_" +:+ Str.lower topic.

(** line 41 *)
Definition search_query (platform topic : string) : string :=
  "best " +:+ platform +:+ " courses for learning " +:+ topic.

(** lines 52-54 *)
Definition rating_of (result_title : string) : string :=
  if (Str.contains "rating" (Str.lower result_title)
      || Str.contains "stars" (Str.lower result_title))%bool
  then rating_marker
  else "N/A".

(** lines 50-62: the dictionary built for one result, or the [KeyError]
    of the first missing key. *)
Definition make_course (platform : string) (result : gmap string string)
  : exn + course :=
  let platform_tag := "[" +:+ platform +:+ "]" in
  match result !! "title" with
  | None => inl (KeyError "title")
  | Some result_title =>
      let rating := rating_of result_title in
      match result !! "url" with
      | None => inl (KeyError "url")
      | Some result_url =>
          inr {| title := platform_tag +:+ " " +:+ result_title;
                 url := result_url;
                 description :=
                   default "No description available" (result !! "content");
                 platform := platform;
                 rating := rating |}
      end
  end.

(** lines 49-62: the inner loop. [all_results] is the list built so far; it
    is returned with the exception when one is raised. *)
Fixpoint process_results (platform : string) (results : list (gmap string string))
    (all_results : list course) : option exn * list course :=
  match results with
  | [] => (None, all_results)
  | result :: rest =>
      match make_course platform result with
      | inl e => (Some e, all_results)
      | inr c => process_results platform rest (all_results ++ [c])
      end
  end.

(** lines 40-62: the loop over the platforms. *)
Fixpoint for_platforms (tavily : tavily_client) (topic : string)
    (ps : list string) (all_results : list course) (s : state)
  : (option exn * list course) * state :=
  match ps with
  | [] => ((None, all_results), s)
  | platform :: ps' =>
      let search_query := search_query platform topic in
      let s1 := send_query search_query s in
      match tavily search_query "advanced" 3%nat with
      | SearchRaises msg => ((Some (UpstreamError msg), all_results), s1)
      | SearchReturns results =>
          match process_results platform results all_results with
          | (Some e, gathered) => ((Some e, gathered), s1)
          | (None, gathered) => for_platforms tavily topic ps' gathered s1
          end
      end
  end.

(** lines 28-71: the body of [search_courses]. *)
Definition search_courses_body (tavily : tavily_client) (topic : string)
    (s : state) : list course * state :=
  let cache_key := cache_key topic in
  match search_cache s !! cache_key with
  | Some cached => (cached, s)
  | None =>
      match for_platforms tavily topic platforms [] s with
      | ((None, all_results), s1) =>
          (all_results, set_search_cache cache_key all_results s1)
      | ((Some e, _), s1) =>
          ([], time_sleep 1
                 (emit (StError ("Error searching for courses: " +:+ str_exn e)) s1))
      end
  end.

(** Streamlit's [@st.cache_data(ttl=...)]: the decorated function is
    memoised on its argument. An entry is served while its age is below
    [ttl]: the call returns the stored value and writes again the elements
    recorded with it. Otherwise the function runs, and its value is stored
    with the time of insertion and the elements it wrote to the page. *)
Definition fresh (ttl now : Z) (entry : cache_entry) : bool :=
  now <? stored_at entry + ttl.

Definition cache_data (ttl : Z) (f : string -> state -> list course * state)
    (arg : string) (s : state) : list course * state :=
  let run :=
    let '(v, s1) := f arg s in
    (v, set_cache_data arg v (drop (length (page s)) (page s1)) s1) in
  match cache_data_store s !! arg with
  | Some entry =>
      if fresh ttl (clock s) entry
      then (cached_value entry, write_all (recorded entry) s)
      else run
  | None => run
  end.

(** line 27: [search_courses] as the script calls it. *)
Definition search_courses (tavily : tavily_client) (topic : string)
  : state -> list course * state :=
  cache_data 3600 (search_courses_body tavily) topic.

(** ** [GroqLLM] *)

Module GroqLLM.

Definition model : string := "llama-3.3-70b-specdec".
Definition temperature : Z := 1.
Definition max_tokens : Z := 5096.

(** lines 83-95: [_call]. A failure of the completion call is reported on
    the page and raised again. *)
Definition _call (groq : groq_client) (prompt : string)
    (stop : option (list string)) (s : state) : (exn + string) * state :=
  match groq (ChatRequest model prompt temperature max_tokens stop) with
  | inr content => (inr content, s)
  | inl msg =>
      (inl (UpstreamError msg),
       emit (StError ("Error calling Groq API: " +:+ msg)) s)
  end.

End GroqLLM.

(** ** The prompt *)

(** lines 97-117: [TUTOR_PROMPT.format(topic=..., duration=..., ...)] *)
Definition TUTOR_PROMPT (topic duration learning_style proficiency : string)
  : string :=
"I want to learn " +:+ topic +:+ " from the world's best professional-YOU. You are the ultimate expert, the top authority in this field, and the best tutor anyone could ever learn from. No one can match your knowledge and expertise.

Course Parameters:
- Duration: " +:+ duration +:+ " weeks
- Learning Style: " +:+ learning_style +:+ "
- Current Proficiency: " +:+ proficiency +:+ "

Teach me everything from basic to advanced, covering every minute detail in a structured and progressive manner, optimized for my " +:+ duration +:+ "-week timeline. Adapt the content to my " +:+ learning_style +:+ " learning style and " +:+ proficiency +:+ " proficiency level.

For each week, create a structured lesson plan that includes:
- **Weekly Goal**: A clear objective for what I should achieve by the end of the week.
- **Topics to Cover**:  List the specific topics within " +:+ topic +:+ " that should be learned this week.
- **Learning Resources**: Suggest specific resources like YouTube videos, Coursera courses, Udemy courses, documentation, or blog posts. Provide direct links if possible.
- **Exercises**: Include 2-3 exercises to solidify my understanding of the week's topics. These should be practical exercises, coding challenges (if applicable to the topic), or questions that encourage critical thinking and application of the learned concepts.
- **Cheat Sheet**: Briefly summarize the key terms, definitions, or formulas from that week's content in bullet points.

Start with foundational concepts in Week 1 and progressively move to more advanced topics in subsequent weeks. Ensure the plan is suitable for a " +:+ duration +:+ "-week course and tailored to my " +:+ learning_style +:+ " learning style and " +:+ proficiency +:+ " proficiency level.

Format each week's plan clearly with headings and bullet points for easy readability.

Let's begin creating the " +:+ duration +:+ "-week learning plan for " +:+ topic +:+ ".".

(** ** [main]: the pipeline block *)

(** What the widgets of lines 167-199 hand to the pipeline. *)
Record plan_request : Type := PlanRequest {
  rq_topic : string;
  rq_duration : nat;
  rq_learning_style : string;
  rq_proficiency : string
}.

(** What one generation cycle computes: the sections it renders and the
    value of [courses]. *)
Record plan : Type := Plan {
  weeks : list week_section;
  courses : list course
}.

(** line 227 *)
Definition learning_plan_sections (learning_plan : string) : list string :=
  Str.split "Week " learning_plan.

(** lines 230-232: one segment; [None] when the trimmed content is empty. *)
Definition parse_section (section : string) : option week_section :=
  let week_num := hd EmptyString (Str.split ":" section) in
  let week_content := Str.strip (Str.join ":" (tail (Str.split ":" section))) in
  if Str.is_empty week_content then None
  else Some (WeekSection week_num week_content).

(** lines 227-232: the sections of the plan, in order of appearance;
    [learning_plan_sections[1:]] skips the text before the first marker. *)
Definition parse_plan (learning_plan : string) : list week_section :=
  omap parse_section (tail (learning_plan_sections learning_plan)).

(** line 234 *)
Definition render_section (w : week_section) : element :=
  StMarkdown ("<div class='learning-plan-section'><h3>Week " +:+ week_num w
              +:+ "</h3>" +:+ week_content w +:+ "</div>").

(** lines 120-130 *)
Definition display_course_card (c : course) (s : state) : state :=
  emit (StExpander (title c)
          [StMarkdown ("**Platform:** " +:+ platform c);
           StMarkdown ("**Rating:** " +:+ rating c);
           StMarkdown ("[Go to Course](" +:+ url c +:+ ")");
           StMarkdown "---";
           StMarkdown (description c)]) s.

(** lines 245-254 *)
Definition display_courses (courses : list course) (s : state) : state :=
  match courses with
  | [] => emit (StInfo "No courses found at the moment. Try refining your search.") s
  | _ :: _ =>
      foldl (fun s p =>
               let platform_courses :=
                 filter (fun c => platform c = p) courses in
               match platform_courses with
               | [] => s
               | _ :: _ =>
                   foldl (fun s c => display_course_card c s)
                         (emit (StMarkdown ("### " +:+ p +:+ " Courses")) s)
                         platform_courses
               end)
            s ["Udemy"; "Coursera"; "YouTube"]
  end.

(** lines 259-263; [feedback] is what the text area holds. *)
Definition display_feedback (feedback : string) (s : state) : state :=
  let s := emit (StWrite "---") s in
  emit (StExpander "💭 Provide Feedback"
          (StTextArea "How can we improve this learning plan?" ::
           if Str.is_empty feedback then []
           else [StSuccess "Thank you for your valuable feedback! 🙏"])) s.

(** lines 213-218 *)
Definition build_prompt (request : plan_request) : string :=
  TUTOR_PROMPT (rq_topic request) (pretty (rq_duration request))
               (rq_learning_style request) (rq_proficiency request).

(** The request [GroqLLM._call] sends for a prompt (lines 85-91). *)
Definition completion_request (prompt : string) : chat_request :=
  ChatRequest GroqLLM.model prompt GroqLLM.temperature GroqLLM.max_tokens None.

(** lines 207-263: the body of the [try] block of [main]. It raises what
    [GroqLLM._call] raises, or completes with the sections and the courses of
    the cycle. *)
Definition generatePlan (tavily : tavily_client) (groq : groq_client)
    (request : plan_request) (feedback : string) (s : state)
  : (exn + plan) * state :=
  let topic := rq_topic request in
  let s := emit (StProgress 0) s in
  let s := emit (StProgress 30) s in
  let prompt := build_prompt request in
  match GroqLLM._call groq prompt None s with
  | (inl e, s) => (inl e, s)
  | (inr learning_plan, s) =>
      let s := emit (StProgress 60) s in
      let s := emit (StSuccess "Your Personalized Learning Plan") s in
      let sections := parse_plan learning_plan in
      let s := foldl (fun s w => emit (render_section w) s) s sections in
      let s := emit (StProgress 80) s in
      let s := emit (StWrite "---") s in
      let s := emit (StSubheader "📚 Recommended Online Courses") s in
      let '(courses, s) := search_courses tavily topic s in
      let s := display_courses courses s in
      let s := emit (StProgress 100) s in
      let s := display_feedback feedback s in
      (inr (Plan sections courses), s)
  end.

(** lines 204-266: the guard on the button, the cycle, and the handler that
    reports what the cycle raised. *)
Definition main (tavily : tavily_client) (groq : groq_client)
    (request : plan_request) (generate_button : bool) (feedback : string)
    (s : state) : state :=
  if (negb (Str.is_empty (rq_topic request)) && generate_button)%bool then
    match generatePlan tavily groq request feedback s with
    | (inr _, s) => s
    | (inl e, s) =>
        emit (StError ("Error creating learning plan: " +:+ str_exn e)) s
    end
  else s.

(** ** Vocabulary of the statements *)

(** The no-break space U+00A0, as UTF-8. *)
Definition NBSP : string := Str.of_bytes [194; 160]%nat.

(** The line feed of a Python string literal. *)
Definition LF : string := String (ascii_of_nat 10) EmptyString.

(** The text of a segment after its first colon, trimmed (line 231). *)
Definition content_after_colon (section : string) : string :=
  Str.strip (Str.join ":" (tail (Str.split ":" section))).

(** The outer cache holds an entry for [topic] that is still fresh: a call
    of [search_courses] in this state is inside the cache window. *)
Definition within_cache_window (topic : string) (s : state) : Prop :=
  exists entry,
    cache_data_store s !! topic = Some entry /\
    fresh 3600 (clock s) entry = true.

(** What line 69 writes to the page. *)
Definition search_error (e : exn) : element :=
  StError ("Error searching for courses: " +:+ str_exn e).

(** A result dictionary with the two keys the loop reads with [d[k]]. *)
Definition well_formed (result : gmap string string) : Prop :=
  is_Some (result !! "title") /\ is_Some (result !! "url").


(** The provider raises on the query of some platform. *)
Definition raises (tavily : tavily_client) (topic : string) : Prop :=
  exists p msg,
    p ∈ platforms /\
    tavily (search_query p topic) "advanced" 3%nat = SearchRaises msg.

(** ** Sample inputs *)

(** A result dictionary and the providers used in the examples below. *)
Definition sample_result : gmap string string :=
  <["title" := "Learn Python"]>
    (<["url" := "https://example.org/learn-python"]>
       (<["content" := "A course for beginners."]> ∅)).

Definition always_raises : tavily_client :=
  fun _ _ _ => SearchRaises "rate limit exceeded".

Definition always_answers : tavily_client :=
  fun _ _ _ => SearchReturns [sample_result].

(** Answers the Udemy query for "Python" and raises on every other query. *)
Definition udemy_then_raises : tavily_client :=
  fun q _ _ =>
    if String.eqb q (search_query "Udemy" "Python")
    then SearchReturns [sample_result]
    else SearchRaises "rate limit exceeded".

(** A result whose title contains "Complete Guide" and "stars". *)
Definition guide_stars_result : gmap string string :=
  <["title" := "Complete Guide to 5 stars"]>
    (<["url" := "https://example.org/guide"]> ∅).

Definition five_star_result : gmap string string :=
  <["title" := "Python Bootcamp (5-star rating)"]>
    (<["url" := "https://example.org/python"]> ∅).

Definition sample_request : plan_request :=
  PlanRequest "Python" 4 "Visual" "Complete Beginner".

Definition groq_down : groq_client := fun _ => inl "quota exceeded".

Definition groq_two_weeks : groq_client :=
  fun _ => inr ("Week 1: Goal A" +:+ LF +:+ "Week 2: Goal B").

(** ** Vocabulary of the further properties *)

(** A course as the loop builds it: tagged with one of the three platforms,
    its title prefixed by the bracketed tag, its rating one of the two
    values. *)
Definition tagged (c : course) : Prop :=
  platform c ∈ platforms /\
  (exists t, title c = ("[" +:+ platform c +:+ "]") +:+ " " +:+ t) /\
  (rating c = rating_marker \/ rating c = "N/A").

(** Every list held by one of the two cache layers satisfies [P]. *)
Definition caches_hold (P : list course -> Prop) (s : state) : Prop :=
  map_Forall (fun _ v => P v) (search_cache s) /\
  map_Forall (fun _ entry => P (cached_value entry)) (cache_data_store s).

(** The provider returns no more results than the [max_results=3] of
    line 45 asks for. *)
Definition capped (tavily : tavily_client) : Prop :=
  forall q results,
    tavily q "advanced" 3%nat = SearchReturns results ->
    (length results <= 3)%nat.

(** The three queries of a search, in the order they are sent. *)
Definition platform_queries (topic : string) : list string :=
  map (fun p => search_query p topic) platforms.

(** The expander [display_course_card] writes (lines 122-130). *)
Definition course_card (c : course) : element :=
  StExpander (title c)
    [StMarkdown ("**Platform:** " +:+ platform c);
     StMarkdown ("**Rating:** " +:+ rating c);
     StMarkdown ("[Go to Course](" +:+ url c +:+ ")");
     StMarkdown "---";
     StMarkdown (description c)].

(** What lines 248-252 write for one platform: nothing when it has no
    course, else its heading and one card per course. *)
Definition platform_group (p : string) (platform_courses : list course)
  : list element :=
  match platform_courses with
  | [] => []
  | _ :: _ =>
      StMarkdown ("### " +:+ p +:+ " Courses") :: map course_card platform_courses
  end.

(** What lines 259-263 write. *)
Definition feedback_elements (feedback : string) : list element :=
  [StWrite "---";
   StExpander "💭 Provide Feedback"
     (StTextArea "How can we improve this learning plan?" ::
      if Str.is_empty feedback then []
      else [StSuccess "Thank you for your valuable feedback! 🙏"])].

(** A string of whitespace characters only. *)
Inductive all_space : string -> Prop :=
| all_space_nil : all_space EmptyString
| all_space_cons w s :
    w ∈ Str.whitespace -> all_space s -> all_space (w +:+ s).

(** Characters of the ASCII range only: on such a string [str.lower]
    folds the letters A-Z and nothing else. *)
Fixpoint is_ascii (s : string) : bool :=
  match s with
  | EmptyString => true
  | String c s' => (Nat.ltb (Str.code c) 128 && is_ascii s')%bool
  end.

(** A result dictionary without a title. *)
Definition untitled_result : gmap string string :=
  <["url" := "https://example.org/untitled"]> ∅.

Definition untitled_answers : tavily_client :=
  fun _ _ _ => SearchReturns [sample_result; untitled_result].

(** * Properties *)

(** ** Strings *)

Example split_week :
  Str.split "Week " "aWeek bWeek " = ["a"; "b"; EmptyString].
Proof. reflexivity. Qed.

Example strip_ex : Str.strip ("  a b" +:+ LF +:+ " ") = "a b".
Proof. reflexivity. Qed.

Section StringFacts.

Import Str.

Lemma app_cons (c : ascii) (s t : string) :
  String c s +:+ t = String c (s +:+ t).
Proof. reflexivity. Qed.

Lemma app_empty_l (s : string) : EmptyString +:+ s = s.
Proof. reflexivity. Qed.

Lemma app_assoc_str (a b c : string) : (a +:+ b) +:+ c = a +:+ b +:+ c.
Proof.
  induction a as [|x a IH]; [reflexivity|].
  rewrite !app_cons. by rewrite IH.
Qed.

Lemma startswith_spec (p s : string) :
  startswith p s = true <-> exists post, s = p +:+ post.
Proof.
  revert s. induction p as [|a p IH]; intros s; simpl.
  - split; [intros _; by exists s | done].
  - destruct s as [|b s].
    + split; [done | intros [post H]; rewrite app_cons in H; discriminate].
    + destruct (Ascii.eqb a b) eqn:E.
      * apply Ascii.eqb_eq in E as ->. rewrite IH. split.
        -- intros [post ->]. by exists post.
        -- intros [post H]. rewrite app_cons in H.
           injection H as ->. by exists post.
      * split; [done|]. intros [post H]. rewrite app_cons in H.
        injection H as -> _. by rewrite Ascii.eqb_refl in E.
Qed.

Lemma contains_spec (sub s : string) :
  contains sub s = true <-> occurs_in sub s.
Proof.
  induction s as [|c s IH]; simpl; rewrite orb_true_iff.
  - split.
    + intros [H|H]; [|done]. apply startswith_spec in H as [post H].
      by exists EmptyString, post.
    + intros [[|x pre] [post H]]; [|rewrite app_cons in H; discriminate].
      left. apply startswith_spec. by exists post.
  - rewrite IH. split.
    + intros [H|[pre [post H]]].
      * apply startswith_spec in H as [post H]. by exists EmptyString, post.
      * exists (String c pre), post. rewrite app_cons. by rewrite H.
    + intros [[|x pre] [post H]].
      * left. apply startswith_spec. by exists post.
      * right. rewrite app_cons in H. injection H as _ ->. by exists pre, post.
Qed.

Lemma occurs_in_tail (sub : string) (c : ascii) (s : string) :
  occurs_in sub s -> occurs_in sub (String c s).
Proof.
  intros [pre [post ->]]. exists (String c pre), post. by rewrite app_cons.
Qed.

(** Without an occurrence of the separator, [split] gives the string back
    as its only segment. *)
Lemma split_no_sep (sep s : string) :
  ~ occurs_in sep s -> split sep s = [s].
Proof.
  unfold split. induction s as [|c s IH]; intros Hno; [done|].
  cbn [split_go].
  destruct (startswith sep (String c s)) eqn:E.
  - exfalso. apply Hno, contains_spec. simpl in *. by rewrite E.
  - rewrite IH; [done|]. intros H. by apply Hno, occurs_in_tail.
Qed.

Lemma lower_app (a b : string) : lower (a +:+ b) = lower a +:+ lower b.
Proof.
  induction a as [|x a IH]; [done|].
  rewrite app_cons. simpl. by rewrite IH, app_cons.
Qed.

Lemma lower_char_idem (c : ascii) : lower_char (lower_char c) = lower_char c.
Proof. by destruct c as [[] [] [] [] [] [] [] []]. Qed.

(** Every character is one of the 256 values of a byte. *)
Lemma ascii_enumerated (P : ascii -> bool) :
  forallb P (map ascii_of_nat (seq 0 256)) = true -> forall a, P a = true.
Proof.
  intros H a. rewrite forallb_forall in H. apply H.
  rewrite <- (ascii_nat_embedding a). apply in_map, in_seq.
  pose proof (nat_ascii_bounded a). lia.
Qed.

(** [lower_char] identifies exactly the two forms of each letter. *)
Lemma same_letter_lower_char (a b : ascii) :
  same_letter a b <-> lower_char a = lower_char b.
Proof.
  revert b. pattern a. revert a.
  assert (H : forall a,
             (fun a => forallb
                (fun b => bool_decide (same_letter a b
                                       <-> lower_char a = lower_char b))
                (map ascii_of_nat (seq 0 256))) a = true).
  { apply ascii_enumerated. vm_compute. reflexivity. }
  intros a b. specialize (H a). cbv beta in H.
  pose proof (ascii_enumerated _ H b) as Hb. cbv beta in Hb.
  by apply bool_decide_eq_true in Hb.
Qed.

(** Differing only in letter case is having the same lowercase form. *)
Lemma same_modulo_case_lower (s t : string) :
  same_modulo_case s t <-> lower s = lower t.
Proof.
  split.
  - induction 1 as [|a b s t Hab _ IH]; [done|].
    simpl. apply same_letter_lower_char in Hab. by rewrite Hab, IH.
  - revert t. induction s as [|a s IH]; intros [|b t] H; simpl in H;
      try discriminate; [constructor|].
    injection H as Hc Hs. constructor; [by apply same_letter_lower_char | auto].
Qed.

Lemma lower_split (t a b : string) :
  lower t = a +:+ b ->
  exists t1 t2, t = t1 +:+ t2 /\ lower t1 = a /\ lower t2 = b.
Proof.
  revert t. induction a as [|x a IH]; intros t H.
  - exists EmptyString, t. by rewrite app_empty_l in *.
  - destruct t as [|c t]; [rewrite app_cons in H; discriminate|].
    rewrite app_cons in H. simpl in H. injection H as Hc Ht.
    destruct (IH _ Ht) as (t1 & t2 & -> & <- & <-).
    exists (String c t1), t2. rewrite app_cons. simpl. by rewrite Hc.
Qed.

(** [sub in s.lower()], for a lowercase [sub], looks for [sub] in [s]
    ignoring letter case. *)
Lemma contains_lower_spec (sub s : string) :
  lower sub = sub ->
  contains sub (lower s) = true <-> occurs_ignoring_case sub s.
Proof.
  intros Hsub. rewrite contains_spec. split.
  - intros [pre [post H]].
    apply lower_split in H as (t1 & t23 & -> & <- & H).
    apply lower_split in H as (t2 & t3 & -> & H2 & <-).
    exists t1, t2, t3. split; [done|].
    apply same_modulo_case_lower. by rewrite Hsub.
  - intros (pre & mid & post & -> & H).
    apply same_modulo_case_lower in H. rewrite Hsub in H.
    exists (lower pre), (lower post). by rewrite !lower_app, H.
Qed.

End StringFacts.

Section StripFacts.

Import Str.

Lemma is_empty_false (s : string) : is_empty s = false <-> s <> EmptyString.
Proof. by destruct s. Qed.

Lemma is_empty_true (s : string) : is_empty s = true <-> s = EmptyString.
Proof. by destruct s. Qed.

Lemma not_occurs_in (sub s : string) :
  contains sub s = false -> ~ occurs_in sub s.
Proof. intros E H%contains_spec. congruence. Qed.

Lemma str_length_app (a b : string) :
  String.length (a +:+ b) = (String.length a + String.length b)%nat.
Proof.
  induction a as [|x a IH]; [done|]. rewrite app_cons. simpl. by rewrite IH.
Qed.

Lemma str_app_empty_r (s : string) : s +:+ EmptyString = s.
Proof.
  induction s as [|x s IH]; [done|]. rewrite app_cons. by rewrite IH.
Qed.

Lemma startswith_app (w a b : string) :
  startswith w a = true -> startswith w (a +:+ b) = true.
Proof.
  intros [post ->]%startswith_spec. apply startswith_spec.
  exists (post +:+ b). by rewrite app_assoc_str.
Qed.

(** Two prefixes of one string: one is a prefix of the other. *)
Lemma startswith_comparable (a b s : string) :
  startswith a s = true -> startswith b s = true ->
  startswith a b = true \/ startswith b a = true.
Proof.
  revert b s. induction a as [|x a IH]; intros b s Ha Hb; [by left|].
  destruct b as [|y b]; [by right|].
  destruct s as [|z s]; [done|]. simpl in *.
  destruct (Ascii.eqb x z) eqn:Ex; [|done].
  destruct (Ascii.eqb y z) eqn:Ey; [|done].
  apply Ascii.eqb_eq in Ex as ->. apply Ascii.eqb_eq in Ey as ->.
  rewrite Ascii.eqb_refl. by apply (IH b s).
Qed.

Lemma whitespace_In (w : string) : w ∈ whitespace <-> In w whitespace.
Proof. apply list_elem_of_In. Qed.

Lemma whitespace_nonempty (w : string) :
  w ∈ whitespace -> exists c t, w = String c t.
Proof.
  intros H%whitespace_In.
  assert (F : forallb (fun w => negb (is_empty w)) whitespace = true)
    by reflexivity.
  rewrite forallb_forall in F. specialize (F w H).
  destruct w as [|c t]; [done|]. by exists c, t.
Qed.

(** No whitespace character is encoded as the start of another. *)
Lemma whitespace_prefix_free (w w' : string) :
  w ∈ whitespace -> w' ∈ whitespace ->
  startswith w' w = true \/ startswith w w' = true -> w' = w.
Proof.
  intros H%whitespace_In H'%whitespace_In Hp.
  assert (F : forallb (fun a => forallb (fun b =>
                 implb (startswith b a || startswith a b) (String.eqb b a))
               whitespace) whitespace = true) by (vm_compute; reflexivity).
  rewrite forallb_forall in F. specialize (F w H).
  rewrite forallb_forall in F. specialize (F w' H').
  apply String.eqb_eq.
  destruct Hp as [Hp|Hp]; rewrite Hp in F; simpl in F; [done|].
  by rewrite orb_true_r in F.
Qed.

Lemma leading_space_Some (s w : string) :
  leading_space s = Some w -> w ∈ whitespace /\ startswith w s = true.
Proof.
  intros H. apply find_some in H as [H1 H2]. by rewrite whitespace_In.
Qed.

Lemma leading_space_None (s w : string) :
  leading_space s = None -> w ∈ whitespace -> startswith w s = false.
Proof.
  intros H Hw%whitespace_In. exact (find_none _ _ H w Hw).
Qed.

Lemma leading_space_app (w rest : string) :
  w ∈ whitespace -> leading_space (w +:+ rest) = Some w.
Proof.
  intros Hw.
  assert (Hs : startswith w (w +:+ rest) = true)
    by (apply startswith_spec; by exists rest).
  destruct (leading_space (w +:+ rest)) as [w'|] eqn:E.
  - apply leading_space_Some in E as [Hw' Hs']. f_equal.
    apply (whitespace_prefix_free w w' Hw Hw').
    exact (startswith_comparable w' w _ Hs' Hs).
  - by rewrite (leading_space_None _ w E Hw) in Hs.
Qed.

Lemma lstrip_go_skip (skipped s : string) :
  lstrip_go (String.length skipped) (skipped +:+ s) = lstrip s.
Proof.
  induction skipped as [|x t IH]; [done|].
  rewrite app_cons. simpl. exact IH.
Qed.

(** One step of [lstrip]: a leading whitespace character is removed. *)
Lemma lstrip_space (s w : string) :
  leading_space s = Some w ->
  exists rest, s = w +:+ rest /\ lstrip s = lstrip rest.
Proof.
  intros E. pose proof (leading_space_Some s w E) as [Hw Hs].
  apply startswith_spec in Hs as [rest ->]. exists rest. split; [done|].
  destruct (whitespace_nonempty w Hw) as (c & t & ->).
  unfold lstrip at 1. rewrite app_cons in *. cbn [lstrip_go]. rewrite E.
  replace (String.length (String c t) - 1)%nat with (String.length t)
    by (simpl; lia).
  apply lstrip_go_skip.
Qed.

Lemma lstrip_no_space (s : string) :
  leading_space s = None -> lstrip s = s.
Proof. intros E. destruct s as [|c s]; [done|]. unfold lstrip. simpl. by rewrite E. Qed.

Lemma lstrip_whitespace (w rest : string) :
  w ∈ whitespace -> lstrip (w +:+ rest) = lstrip rest.
Proof.
  intros Hw. destruct (lstrip_space _ w (leading_space_app w rest Hw))
    as (rest' & E & ->).
  by apply (inj (String.app w)) in E as <-.
Qed.

(** What [lstrip] removes is whitespace, and what it leaves does not start
    with whitespace. *)
Lemma lstrip_bounded (n : nat) (s : string) :
  (String.length s <= n)%nat ->
  (exists l, s = l +:+ lstrip s /\ all_space l) /\
  leading_space (lstrip s) = None.
Proof.
  revert s. induction n as [|n IH]; intros s Hn.
  - destruct s; [|simpl in Hn; lia]. split; [|done].
    exists EmptyString. split; [done | constructor].
  - destruct (leading_space s) as [w|] eqn:E.
    + destruct (lstrip_space s w E) as (rest & -> & ->).
      pose proof (leading_space_Some _ w E) as [Hw _].
      destruct (whitespace_nonempty w Hw) as (c & t & Hct).
      destruct (IH rest) as [(l & Hl & Hs) Hnone].
      { rewrite str_length_app, Hct in Hn. simpl in Hn. lia. }
      split; [|done]. exists (w +:+ l).
      split; [by rewrite app_assoc_str, <- Hl | by constructor].
    + rewrite (lstrip_no_space s E). split; [|done].
      exists EmptyString. split; [done | constructor].
Qed.

Lemma lstrip_decompose (s : string) :
  exists l, s = l +:+ lstrip s /\ all_space l.
Proof. exact (proj1 (lstrip_bounded (String.length s) s (le_n _))). Qed.

Lemma lstrip_leading (s : string) : leading_space (lstrip s) = None.
Proof. exact (proj2 (lstrip_bounded (String.length s) s (le_n _))). Qed.

Lemma all_space_app (a b : string) :
  all_space a -> all_space b -> all_space (a +:+ b).
Proof.
  induction 1 as [|w a Hw _ IH]; intros Hb; [done|].
  rewrite app_assoc_str. constructor; auto.
Qed.

(** [blank] decides [all_space]. *)
Lemma blank_all_space (s : string) : blank s = true <-> all_space s.
Proof.
  unfold blank. rewrite is_empty_true. split.
  - intros H. destruct (lstrip_decompose s) as (l & Hl & Hs).
    rewrite H, str_app_empty_r in Hl. by subst l.
  - induction 1 as [|w s Hw _ IH]; [done|]. by rewrite lstrip_whitespace.
Qed.

(** What [rstrip] removes is whitespace. *)
Lemma rstrip_decompose (s : string) :
  exists r, s = rstrip s +:+ r /\ all_space r.
Proof.
  induction s as [|c s IH].
  - exists EmptyString. split; [done | constructor].
  - cbn [rstrip]. destruct (blank (String c s)) eqn:E.
    + exists (String c s). split; [done | by apply blank_all_space].
    + destruct IH as (r & Hr & Hs). exists r.
      split; [by rewrite app_cons, <- Hr | done].
Qed.

Lemma rstrip_not_blank (c : ascii) (s : string) :
  blank (String c s) = false -> blank (String c (rstrip s)) = false.
Proof.
  intros E. destruct (blank (String c (rstrip s))) eqn:E'; [|done].
  destruct (rstrip_decompose s) as (r & Hr & Hs).
  apply blank_all_space in E'.
  pose proof (all_space_app _ _ E' Hs) as H.
  rewrite app_cons, <- Hr in H. apply blank_all_space in H. congruence.
Qed.

Lemma rstrip_idem (s : string) : rstrip (rstrip s) = rstrip s.
Proof.
  induction s as [|c s IH]; [done|]. cbn [rstrip].
  destruct (blank (String c s)) eqn:E; [done|].
  cbn [rstrip]. by rewrite (rstrip_not_blank c s E), IH.
Qed.

Lemma leading_space_prefix (a b : string) :
  leading_space (a +:+ b) = None -> leading_space a = None.
Proof.
  intros H. destruct (leading_space a) as [w|] eqn:E; [|done].
  apply leading_space_Some in E as [Hw Hs].
  pose proof (leading_space_None _ w H Hw) as Hn.
  by rewrite (startswith_app w a b Hs) in Hn.
Qed.

Lemma lstrip_rstrip_lstrip (s : string) :
  lstrip (rstrip (lstrip s)) = rstrip (lstrip s).
Proof.
  apply lstrip_no_space.
  destruct (rstrip_decompose (lstrip s)) as (r & Hr & _).
  apply (leading_space_prefix _ r). rewrite <- Hr. apply lstrip_leading.
Qed.

(** Trimming a trimmed string changes nothing. *)
Lemma strip_idem (s : string) : strip (strip s) = strip s.
Proof.
  unfold strip. by rewrite lstrip_rstrip_lstrip, rstrip_idem.
Qed.

(** What [rstrip] leaves does not end with whitespace. *)
Lemma rstrip_trailing (s pre w : string) :
  w ∈ whitespace -> rstrip s <> pre +:+ w.
Proof.
  intros Hw. revert pre. induction s as [|c s IH]; intros pre.
  - destruct (whitespace_nonempty w Hw) as (x & t & ->).
    destruct pre; [done|]. by rewrite app_cons.
  - cbn [rstrip]. destruct (blank (String c s)) eqn:E.
    + destruct (whitespace_nonempty w Hw) as (x & t & ->).
      destruct pre; [done|]. by rewrite app_cons.
    + intros H. destruct pre as [|y pre].
      * rewrite app_empty_l in H.
        pose proof (rstrip_not_blank c s E) as E'. rewrite H in E'.
        assert (Hb : blank w = true).
        { apply blank_all_space. rewrite <- (str_app_empty_r w).
          constructor; [done | constructor]. }
        congruence.
      * rewrite app_cons in H. injection H as _ H. by apply (IH pre).
Qed.

End StripFacts.

(** ** The plan parser *)

Lemma parse_section_Some (section : string) (w : week_section) :
  parse_section section = Some w ->
  week_num w = hd EmptyString (Str.split ":" section) /\
  week_content w = content_after_colon section /\
  week_content w <> EmptyString.
Proof.
  unfold parse_section, content_after_colon.
  destruct (Str.is_empty _) eqn:E; [done|].
  intros [= <-]. simpl. by apply is_empty_false in E.
Qed.

(** C6: parsing "Week 1: Goal A\nWeek 2: Goal B" yields exactly two
    sections, in order: week "1" with content "Goal A", then week "2" with
    content "Goal B", the contents trimmed. *)
Theorem C6_parse_two_weeks :
  parse_plan ("Week 1: Goal A" +:+ LF +:+ "Week 2: Goal B")
  = [WeekSection "1" "Goal A"; WeekSection "2" "Goal B"].
Proof. vm_compute. reflexivity. Qed.

(** C7: an input with no occurrence of "Week " parses to the empty
    sequence of sections; the parser is a total function, so it does not
    fail. *)
Theorem C7_parse_no_marker (learning_plan : string) :
  ~ Str.occurs_in "Week " learning_plan ->
  parse_plan learning_plan = [].
Proof.
  intros Hno. unfold parse_plan, learning_plan_sections.
  by rewrite (split_no_sep _ _ Hno).
Qed.

Lemma C7_parse_no_marker_witness :
  ~ Str.occurs_in "Week " "Here is some advice about week planning." /\
  parse_plan "Here is some advice about week planning." = [].
Proof.
  assert (H : ~ Str.occurs_in "Week " "Here is some advice about week planning.")
    by (apply not_occurs_in; reflexivity).
  split; [exact H | exact (C7_parse_no_marker _ H)].
Defined.

(** C8: every section the parser produces has a content that is non-empty
    and trimmed: it is the trimmed text after the first colon of a segment
    that follows a "Week " marker, and segments whose trimmed content is
    empty produce no section. In particular "Week 1:\nWeek 2: Content"
    yields exactly one section, for week 2. *)
Theorem C8_sections_have_content (learning_plan : string) :
  Forall (fun w =>
            week_content w <> EmptyString /\
            Str.strip (week_content w) = week_content w /\
            exists section,
              section ∈ tail (learning_plan_sections learning_plan) /\
              week_content w = content_after_colon section)
         (parse_plan learning_plan) /\
  length (parse_plan learning_plan)
  = length (filter (fun section => content_after_colon section <> EmptyString)
                   (tail (learning_plan_sections learning_plan))) /\
  parse_plan ("Week 1:" +:+ LF +:+ "Week 2: Content")
  = [WeekSection "2" "Content"].
Proof.
  split; [|split].
  - apply Forall_forall. intros w Hw.
    unfold parse_plan in Hw. apply list_elem_of_omap in Hw as (section & Hin & Hs).
    apply parse_section_Some in Hs as (_ & Hc & Hne).
    split; [done|]. split.
    + rewrite Hc. unfold content_after_colon. apply strip_idem.
    + by exists section.
  - unfold parse_plan.
    induction (tail (learning_plan_sections learning_plan)) as [|x l IH]; [done|].
    rewrite filter_cons. cbn [omap list_omap].
    unfold parse_section at 1. fold (content_after_colon x).
    destruct (Str.is_empty (content_after_colon x)) eqn:E.
    + rewrite decide_False; [exact IH|].
      destruct (content_after_colon x); [tauto | discriminate].
    + rewrite decide_True by (by apply is_empty_false). simpl. by rewrite IH.
  - vm_compute. reflexivity.
Qed.

(** ** The rating heuristic *)

Lemma rating_of_values (result_title : string) :
  rating_of result_title = rating_marker \/ rating_of result_title = "N/A".
Proof. unfold rating_of. destruct (_ || _)%bool; auto. Qed.

Lemma rating_marker_not_NA : rating_marker <> "N/A".
Proof. discriminate. Qed.

Lemma rating_of_marker (result_title : string) :
  rating_of result_title = rating_marker <->
  Str.occurs_ignoring_case "rating" result_title \/
  Str.occurs_ignoring_case "stars" result_title.
Proof.
  rewrite <- !contains_lower_spec by reflexivity.
  rewrite <- orb_true_iff. unfold rating_of.
  destruct (_ || _)%bool; split; done.
Qed.

Lemma occurs_in_ignoring_case (sub mid s : string) :
  Str.occurs_in mid s ->
  Str.occurs_ignoring_case sub mid ->
  Str.occurs_ignoring_case sub s.
Proof.
  intros (pre & post & ->) (pre' & mid' & post' & -> & H).
  exists (pre +:+ pre'), mid', (post' +:+ post). split; [|done].
  by rewrite !app_assoc_str.
Qed.

Lemma make_course_rating (platform : string) (result : gmap string string)
    (result_title result_url : string) :
  result !! "title" = Some result_title ->
  result !! "url" = Some result_url ->
  make_course platform result
  = inr (Course (("[" +:+ platform +:+ "]") +:+ " " +:+ result_title) result_url
                (default "No description available" (result !! "content"))
                platform (rating_of result_title)).
Proof. intros Ht Hu. unfold make_course. by rewrite Ht, Hu. Qed.

(** C9 as stated fails in its last example: a title that contains
    "Complete Guide" gets the marker, not "N/A", when it also contains
    "stars". *)
Lemma C9_counterexample :
  guide_stars_result !! "title" = Some "Complete Guide to 5 stars" /\
  Str.occurs_in "Complete Guide" "Complete Guide to 5 stars" /\
  make_course "Udemy" guide_stars_result
  = inr (Course "[Udemy] Complete Guide to 5 stars" "https://example.org/guide"
                "No description available" "Udemy" rating_marker) /\
  rating_marker <> "N/A".
Proof.
  split; [reflexivity|]. split; [|split; [reflexivity | discriminate]].
  exists EmptyString, " to 5 stars". reflexivity.
Qed.

(** C9 (amended): for every raw result (a dictionary with a title and a
    url), the rating of the course built from it is the five-star marker
    exactly when the title contains "rating" or "stars" with the case of the
    letters ignored, and is "N/A" otherwise; no other value occurs. A title
    containing "5-star rating" gets the marker; a title containing
    "Complete Guide" gets "N/A" when it contains neither of the two words,
    as the title "Complete Guide" itself. *)
Theorem C9_rating_heuristic (platform : string) (result : gmap string string)
    (result_title result_url : string) :
  result !! "title" = Some result_title ->
  result !! "url" = Some result_url ->
  exists c : course,
    make_course platform result = inr c /\
    (rating c = rating_marker <->
       Str.occurs_ignoring_case "rating" result_title \/
       Str.occurs_ignoring_case "stars" result_title) /\
    (rating c = "N/A" <->
       ~ (Str.occurs_ignoring_case "rating" result_title \/
          Str.occurs_ignoring_case "stars" result_title)) /\
    (rating c = rating_marker \/ rating c = "N/A") /\
    (Str.occurs_in "5-star rating" result_title -> rating c = rating_marker) /\
    (Str.occurs_in "Complete Guide" result_title ->
     ~ (Str.occurs_ignoring_case "rating" result_title \/
        Str.occurs_ignoring_case "stars" result_title) ->
     rating c = "N/A") /\
    (result_title = "Complete Guide" -> rating c = "N/A").
Proof.
  intros Ht Hu. eexists. split; [by apply make_course_rating|]. simpl.
  pose proof (rating_of_marker result_title) as Hm.
  pose proof (rating_of_values result_title) as Hv.
  pose proof rating_marker_not_NA as Hne.
  assert (HNA : ~ (Str.occurs_ignoring_case "rating" result_title \/
                   Str.occurs_ignoring_case "stars" result_title) ->
                rating_of result_title = "N/A").
  { intros Hc. destruct Hv as [Hv|Hv]; [|done]. by apply Hm in Hv. }
  split; [exact Hm|]. split; [|split; [exact Hv|split; [|split]]].
  - split; [|exact HNA].
    intros H Hc. apply Hm in Hc. congruence.
  - intros Hocc. apply Hm. left.
    apply (occurs_in_ignoring_case _ _ _ Hocc).
    exists "5-star ", "rating", EmptyString. split; [reflexivity|].
    by apply same_modulo_case_lower.
  - intros _. exact HNA.
  - intros ->. reflexivity.
Qed.

Lemma C9_rating_heuristic_witness :
  five_star_result !! "title" = Some "Python Bootcamp (5-star rating)" /\
  five_star_result !! "url" = Some "https://example.org/python" /\
  exists c : course,
    make_course "Udemy" five_star_result = inr c /\
    rating c = rating_marker.
Proof.
  assert (Ht : five_star_result !! "title" = Some "Python Bootcamp (5-star rating)")
    by reflexivity.
  assert (Hu : five_star_result !! "url" = Some "https://example.org/python")
    by reflexivity.
  split; [exact Ht|]. split; [exact Hu|].
  destruct (C9_rating_heuristic "Udemy" five_star_result _ _ Ht Hu)
    as (c & Hc & _ & _ & _ & Hstar & _ & _).
  exists c. split; [exact Hc|].
  apply Hstar. exists "Python Bootcamp (", ")". reflexivity.
Defined.

(** ** The course search *)

Section SearchFacts.

Variable tavily : tavily_client.
Variable topic : string.


(** The loop only sends queries: the caches, the clock and the page are as
    before, and the log of queries has grown at its end. *)
Lemma for_platforms_frame (ps : list string) (all_results : list course)
    (s : state) :
  let run := for_platforms tavily topic ps all_results s in
  search_cache run.2 = search_cache s /\
  cache_data_store run.2 = cache_data_store s /\
  clock run.2 = clock s /\
  page run.2 = page s /\
  exists more, queries run.2 = queries s ++ more.
Proof.
  revert all_results s. induction ps as [|p ps IH]; intros acc s; simpl.
  - repeat split; try done. exists []. by rewrite app_nil_r.
  - destruct (tavily _ _ _) as [msg|results]; simpl.
    + repeat split; try done. by eexists.
    + destruct (process_results p results acc) as [[e|] g]; simpl.
      * repeat split; try done. by eexists.
      * destruct (IH g (send_query (search_query p topic) s))
          as (H1 & H2 & H3 & H4 & more & H5).
        repeat split; try done. rewrite H5. simpl.
        exists (search_query p topic :: more). by rewrite <- app_assoc.
Qed.

(** The first platform of the list is always queried. *)
Lemma for_platforms_first (p : string) (ps : list string)
    (all_results : list course) (s : state) :
  exists more,
    queries (for_platforms tavily topic (p :: ps) all_results s).2
    = queries s ++ search_query p topic :: more.
Proof.
  simpl. destruct (tavily _ _ _) as [msg|results]; simpl.
  - by exists [].
  - destruct (process_results p results all_results) as [[e|] g]; simpl.
    + by exists [].
    + destruct (for_platforms_frame ps g (send_query (search_query p topic) s))
        as (_ & _ & _ & _ & more & ->).
      exists more. simpl. by rewrite <- app_assoc.
Qed.

(** A platform whose query raises makes the loop end in an exception. *)
Lemma for_platforms_raises (ps : list string) (all_results : list course)
    (s : state) (p msg : string) :
  p ∈ ps ->
  tavily (search_query p topic) "advanced" 3%nat = SearchRaises msg ->
  exists e, (for_platforms tavily topic ps all_results s).1.1 = Some e.
Proof.
  intros Hin Hr. revert all_results s.
  induction ps as [|q ps IH]; intros acc s; [by apply elem_of_nil in Hin|].
  simpl. destruct (tavily (search_query q topic) _ _) as [m|results] eqn:E.
  - by eexists.
  - destruct (process_results q results acc) as [[e|] g]; [by eexists|].
    apply IH. apply elem_of_cons in Hin as [->|Hin]; [congruence | done].
Qed.


(** A hit in the session cache: the cached list, nothing else happens. *)
Lemma search_courses_body_hit (s : state) (cached : list course) :
  search_cache s !! cache_key topic = Some cached ->
  search_courses_body tavily topic s = (cached, s).
Proof. intros H. unfold search_courses_body. by rewrite H. Qed.

(** A miss in the session cache followed by an exception in the loop. *)
Lemma search_courses_body_except (s s1 : state) (e : exn)
    (gathered : list course) :
  search_cache s !! cache_key topic = None ->
  for_platforms tavily topic platforms [] s = ((Some e, gathered), s1) ->
  search_courses_body tavily topic s
  = ([], time_sleep 1 (emit (search_error e) s1)).
Proof. intros H E. unfold search_courses_body. by rewrite H, E. Qed.


(** The body never touches the outer store, and only adds queries. *)
Lemma search_courses_body_frame (s : state) :
  let call := search_courses_body tavily topic s in
  cache_data_store call.2 = cache_data_store s /\
  exists more, queries call.2 = queries s ++ more.
Proof.
  unfold search_courses_body.
  destruct (search_cache s !! cache_key topic) as [cached|].
  - split; [done|]. exists []. by rewrite app_nil_r.
  - pose proof (for_platforms_frame platforms [] s) as (_ & H2 & _ & _ & H5).
    destruct (for_platforms tavily topic platforms [] s) as [[[e|] g] s1];
      simpl in *; by split.
Qed.

(** A fresh entry of the outer cache is served: its value is returned and
    the elements recorded with it are written again. *)
Lemma search_courses_hit (s : state) (entry : cache_entry) :
  cache_data_store s !! topic = Some entry ->
  fresh 3600 (clock s) entry = true ->
  search_courses tavily topic s
  = (cached_value entry, write_all (recorded entry) s).
Proof.
  intros H F. unfold search_courses, cache_data. by rewrite H, F.
Qed.

(** Outside the cache window the body runs and its value is stored. *)
Lemma search_courses_miss (s : state) :
  ~ within_cache_window topic s ->
  search_courses tavily topic s
  = ((search_courses_body tavily topic s).1,
     set_cache_data topic (search_courses_body tavily topic s).1
                    (drop (length (page s))
                          (page (search_courses_body tavily topic s).2))
                    (search_courses_body tavily topic s).2).
Proof.
  intros Hout. unfold search_courses, cache_data.
  destruct (search_courses_body tavily topic s) as [v s1]; simpl.
  destruct (cache_data_store s !! topic) as [entry|] eqn:E; [|done].
  destruct (fresh 3600 (clock s) entry) eqn:F; [|done].
  exfalso. apply Hout. by exists entry.
Qed.

(** After any call the outer store holds the value the call returned. *)
Lemma search_courses_stored (s : state) :
  exists t0 els,
    cache_data_store (search_courses tavily topic s).2 !! topic
    = Some (CacheEntry t0 (search_courses tavily topic s).1 els).
Proof.
  unfold search_courses, cache_data.
  destruct (cache_data_store s !! topic) as [[t0 v els]|] eqn:E.
  - destruct (fresh 3600 (clock s) (CacheEntry t0 v els)); simpl.
    + by exists t0, els.
    + destruct (search_courses_body tavily topic s) as [v' s1]; simpl.
      do 2 eexists. apply lookup_insert_eq.
  - destruct (search_courses_body tavily topic s) as [v' s1]; simpl.
    do 2 eexists. apply lookup_insert_eq.
Qed.

End SearchFacts.

(** C1 as stated fails: with one course gathered from Udemy and the
    Coursera query raising, the call returns the empty list, not the list
    gathered so far. *)
Lemma C1_counterexample :
  let run := for_platforms udemy_then_raises "Python" platforms [] initial_state in
  let call := search_courses_body udemy_then_raises "Python" initial_state in
  run.1.1 = Some (UpstreamError "rate limit exceeded") /\
  run.1.2 = [Course "[Udemy] Learn Python" "https://example.org/learn-python"
                    "A course for beginners." "Udemy" "N/A"] /\
  call.1 = [] /\
  call.1 <> run.1.2.
Proof. vm_compute. repeat split; discriminate. Qed.

(** C1 (amended): when a query of the search raises, the exception is
    caught: the call reports it on the page, sleeps one second and returns
    the empty list, whatever was gathered from the platforms queried before
    the failure. *)
Theorem C1_search_error_returns_empty (tavily : tavily_client)
    (topic : string) (s : state) :
  search_cache s !! cache_key topic = None ->
  raises tavily topic ->
  exists e gathered s1,
    for_platforms tavily topic platforms [] s = ((Some e, gathered), s1) /\
    search_courses_body tavily topic s
    = ([], time_sleep 1 (emit (search_error e) s1)) /\
    page (search_courses_body tavily topic s).2 = page s ++ [search_error e] /\
    clock (search_courses_body tavily topic s).2 = clock s + 1 /\
    (~ within_cache_window topic s -> (search_courses tavily topic s).1 = []).
Proof.
  intros Hmiss (p & msg & Hp & Hr).
  destruct (for_platforms_raises tavily topic platforms [] s p msg Hp Hr) as [e He].
  pose proof (for_platforms_frame tavily topic platforms [] s)
    as (_ & _ & Hc & Hpg & _).
  destruct (for_platforms tavily topic platforms [] s) as [[o gathered] s1] eqn:E.
  simpl in He, Hc, Hpg. subst o.
  exists e, gathered, s1. split; [done|].
  rewrite (search_courses_body_except tavily topic s s1 e gathered Hmiss E).
  split; [done|]. simpl. rewrite Hpg, Hc. repeat split.
  intros Hout. rewrite (search_courses_miss tavily topic s Hout). simpl.
  by rewrite (search_courses_body_except tavily topic s s1 e gathered Hmiss E).
Qed.

Lemma C1_search_error_returns_empty_witness :
  search_cache initial_state !! cache_key "Python" = None /\
  raises udemy_then_raises "Python" /\
  (search_courses_body udemy_then_raises "Python" initial_state).1 = [].
Proof.
  assert (Hmiss : search_cache initial_state !! cache_key "Python" = None)
    by reflexivity.
  assert (Hr : raises udemy_then_raises "Python").
  { exists "Coursera", "rate limit exceeded". split; [|reflexivity].
    apply list_elem_of_further, list_elem_of_here. }
  split; [exact Hmiss|]. split; [exact Hr|].
  destruct (C1_search_error_returns_empty udemy_then_raises "Python"
              initial_state Hmiss Hr) as (e & g & s1 & _ & -> & _).
  reflexivity.
Defined.

(** C10: when a query of the search raises, the call leaves the session
    cache as it was, with no entry under the topic's key, so a later run of
    the function body for the same topic queries the provider again. *)
Theorem C10_failed_search_not_cached (tavily tavily' : tavily_client)
    (topic : string) (s : state) (d : Z) :
  search_cache s !! cache_key topic = None ->
  raises tavily topic ->
  let failed := search_courses_body tavily topic s in
  search_cache failed.2 = search_cache s /\
  search_cache failed.2 !! cache_key topic = None /\
  search_cache (search_courses tavily topic s).2 = search_cache s /\
  exists more,
    queries (search_courses_body tavily' topic (elapse d failed.2)).2
    = queries failed.2 ++ search_query "Udemy" topic :: more.
Proof.
  intros Hmiss (p & msg & Hp & Hr).
  destruct (for_platforms_raises tavily topic platforms [] s p msg Hp Hr) as [e He].
  pose proof (for_platforms_frame tavily topic platforms [] s)
    as (Hsc & _ & _ & _ & _).
  destruct (for_platforms tavily topic platforms [] s) as [[o gathered] s1] eqn:E.
  simpl in He, Hsc. subst o.
  assert (Hbody : search_courses_body tavily topic s
                  = ([], time_sleep 1 (emit (search_error e) s1)))
    by exact (search_courses_body_except tavily topic s s1 e gathered Hmiss E).
  cbv zeta. rewrite Hbody. cbn [snd fst].
  assert (Hsame : search_cache (time_sleep 1 (emit (search_error e) s1))
                  = search_cache s) by exact Hsc.
  split; [exact Hsame|]. split; [by rewrite Hsame|]. split.
  - unfold search_courses, cache_data. rewrite Hbody.
    destruct (cache_data_store s !! topic) as [entry|]; [|exact Hsc].
    destruct (fresh 3600 (clock s) entry); [done | exact Hsc].
  - set (s2 := elapse d (time_sleep 1 (emit (search_error e) s1))).
    assert (Hmiss2 : search_cache s2 !! cache_key topic = None)
      by (unfold s2; simpl; by rewrite Hsc).
    unfold search_courses_body. rewrite Hmiss2.
    destruct (for_platforms_first tavily' topic "Udemy" ["Coursera"; "YouTube"] [] s2)
      as [more Hq].
    fold platforms in Hq.
    destruct (for_platforms tavily' topic platforms [] s2) as [[[e'|] g'] s3];
      exists more; exact Hq.
Qed.

Lemma C10_failed_search_not_cached_witness :
  search_cache initial_state !! cache_key "Python" = None /\
  raises always_raises "Python" /\
  search_cache (search_courses_body always_raises "Python" initial_state).2
  = search_cache initial_state.
Proof.
  assert (Hmiss : search_cache initial_state !! cache_key "Python" = None)
    by reflexivity.
  assert (Hr : raises always_raises "Python").
  { exists "Udemy", "rate limit exceeded". split; [|reflexivity].
    apply list_elem_of_here. }
  split; [exact Hmiss|]. split; [exact Hr|].
  exact (proj1 (C10_failed_search_not_cached always_raises always_answers
                  "Python" initial_state 0 Hmiss Hr)).
Defined.

(** ** The two cache layers *)

Lemma cache_key_same_modulo_case (a b : string) :
  Str.same_modulo_case a b -> cache_key a = cache_key b.
Proof.
  intros H%same_modulo_case_lower. unfold cache_key. by rewrite H.
Qed.


(** C4: when [search_courses] is called twice with the same topic and the
    second call falls inside the one-hour cache window, the second call sends
    no query to the provider and returns the value of the first call. A first
    call that runs the body opens a window that lasts an hour, and on a cold
    cache it is the first call that queries the provider. *)
Theorem C4_second_call_served_from_cache (tavily1 tavily2 : tavily_client)
    (topic : string) (s : state) (d : Z) :
  (within_cache_window topic (elapse d (search_courses tavily1 topic s).2) ->
   (search_courses tavily2 topic
      (elapse d (search_courses tavily1 topic s).2)).1
   = (search_courses tavily1 topic s).1 /\
   queries (search_courses tavily2 topic
              (elapse d (search_courses tavily1 topic s).2)).2
   = queries (search_courses tavily1 topic s).2) /\
  (~ within_cache_window topic s -> d < 3600 ->
   within_cache_window topic (elapse d (search_courses tavily1 topic s).2)) /\
  (~ within_cache_window topic s ->
   search_cache s !! cache_key topic = None ->
   exists more,
     queries (search_courses tavily1 topic s).2
     = queries s ++ search_query "Udemy" topic :: more).
Proof.
  split; [|split].
  - intros (entry & Hentry & Hfresh).
    destruct (search_courses_stored tavily1 topic s) as (t0 & els & Hstored).
    simpl in Hentry. rewrite Hstored in Hentry. injection Hentry as <-.
    by rewrite (search_courses_hit tavily2 topic
                  (elapse d (search_courses tavily1 topic s).2) _ Hstored Hfresh).
  - intros Hout Hd. rewrite (search_courses_miss tavily1 topic s Hout).
    eexists. split; [apply lookup_insert_eq|].
    unfold fresh. simpl. apply Z.ltb_lt. lia.
  - intros Hout Hmiss. rewrite (search_courses_miss tavily1 topic s Hout). simpl.
    unfold search_courses_body. rewrite Hmiss.
    destruct (for_platforms_first tavily1 topic "Udemy" ["Coursera"; "YouTube"] [] s)
      as [more Hq].
    fold platforms in Hq.
    destruct (for_platforms tavily1 topic platforms [] s) as [[[e|] g] s1];
      exists more; exact Hq.
Qed.

Lemma C4_second_call_served_from_cache_witness :
  within_cache_window "Python"
    (elapse 1800 (search_courses always_answers "Python" initial_state).2) /\
  (search_courses always_raises "Python"
     (elapse 1800 (search_courses always_answers "Python" initial_state).2)).1
  = (search_courses always_answers "Python" initial_state).1 /\
  queries (search_courses always_raises "Python"
             (elapse 1800 (search_courses always_answers "Python" initial_state).2)).2
  = queries (search_courses always_answers "Python" initial_state).2.
Proof.
  assert (Hin : within_cache_window "Python"
                  (elapse 1800 (search_courses always_answers "Python" initial_state).2)).
  { eexists. split; reflexivity. }
  split; [exact Hin|].
  exact (proj1 (C4_second_call_served_from_cache always_answers always_raises
                  "Python" initial_state 1800) Hin).
Defined.




(** ** The generation cycle *)

Lemma render_sections_frame (sections : list week_section) (s : state) :
  let s' := foldl (fun s w => emit (render_section w) s) s sections in
  search_cache s' = search_cache s /\
  cache_data_store s' = cache_data_store s /\
  clock s' = clock s /\
  queries s' = queries s.
Proof.
  revert s. induction sections as [|w l IH]; intros s; [done|].
  simpl. destruct (IH (emit (render_section w) s)) as (H1 & H2 & H3 & H4).
  by rewrite H1, H2, H3, H4.
Qed.

(** The window and the session cache are read from fields that writing to
    the page leaves alone. *)
Lemma within_cache_window_frame (topic : string) (s s' : state) :
  cache_data_store s' = cache_data_store s ->
  clock s' = clock s ->
  within_cache_window topic s' -> within_cache_window topic s.
Proof.
  intros H1 H2 (entry & He & Hf). exists entry. by rewrite <- H1, <- H2.
Qed.

(** C2: when the completion call fails, the cycle fails with the upstream
    error: it returns no plan, renders no section, sends no query to the
    search provider and leaves both caches as they were; [main] then reports
    the error. *)
Theorem C2_llm_failure_aborts (tavily : tavily_client) (groq : groq_client)
    (request : plan_request) (feedback : string) (s : state) (msg : string) :
  groq (completion_request (build_prompt request)) = inl msg ->
  exists s',
    generatePlan tavily groq request feedback s
    = (inl (UpstreamError msg), s') /\
    queries s' = queries s /\
    search_cache s' = search_cache s /\
    cache_data_store s' = cache_data_store s /\
    page s' = page s ++ [StProgress 0; StProgress 30;
                         StError ("Error calling Groq API: " +:+ msg)] /\
    (Str.is_empty (rq_topic request) = false ->
     main tavily groq request true feedback s
     = emit (StError ("Error creating learning plan: " +:+ msg)) s').
Proof.
  intros Hfail.
  assert (Hgen : generatePlan tavily groq request feedback s
                 = (inl (UpstreamError msg),
                    emit (StError ("Error calling Groq API: " +:+ msg))
                      (emit (StProgress 30) (emit (StProgress 0) s)))).
  { unfold generatePlan, GroqLLM._call.
    fold (completion_request (build_prompt request)). by rewrite Hfail. }
  eexists. split; [exact Hgen|]. simpl.
  repeat split; try done.
  - by rewrite <- !app_assoc.
  - intros Htopic. unfold main. by rewrite Htopic, Hgen.
Qed.

Lemma C2_llm_failure_aborts_witness :
  groq_down (completion_request (build_prompt sample_request))
  = inl "quota exceeded" /\
  exists s',
    generatePlan always_answers groq_down sample_request EmptyString initial_state
    = (inl (UpstreamError "quota exceeded"), s') /\
    queries s' = [].
Proof.
  assert (H : groq_down (completion_request (build_prompt sample_request))
              = inl "quota exceeded") by reflexivity.
  split; [exact H|].
  destruct (C2_llm_failure_aborts always_answers groq_down sample_request
              EmptyString initial_state "quota exceeded" H)
    as (s' & Hgen & Hq & _).
  exists s'. split; [exact Hgen | exact Hq].
Defined.

(** Writing to the page sends no query. *)
Lemma foldl_queries {A : Type} (f : state -> A -> state) (l : list A) (s : state) :
  (forall s a, queries (f s a) = queries s) ->
  queries (foldl f s l) = queries s.
Proof.
  intros Hf. revert s. induction l as [|a l IH]; intros s; [done|].
  simpl. by rewrite IH, Hf.
Qed.

Lemma display_courses_queries (cs : list course) (s : state) :
  queries (display_courses cs s) = queries s.
Proof.
  unfold display_courses. destruct cs as [|c cs]; [done|].
  apply foldl_queries. intros s0 p.
  destruct (filter _ _) as [|c' cs']; [done|].
  by rewrite foldl_queries.
Qed.

Lemma display_feedback_queries (feedback : string) (s : state) :
  queries (display_feedback feedback s) = queries s.
Proof. unfold display_feedback. by destruct (Str.is_empty feedback). Qed.

(** A cycle whose completion call succeeds: the sections are parsed and
    rendered, then the courses are searched in a state that differs from the
    initial one by the page only. *)
Lemma generatePlan_completion (tavily : tavily_client) (groq : groq_client)
    (request : plan_request) (feedback : string) (s : state)
    (learning_plan : string) :
  groq (completion_request (build_prompt request)) = inr learning_plan ->
  exists s2,
    search_cache s2 = search_cache s /\
    cache_data_store s2 = cache_data_store s /\
    clock s2 = clock s /\
    queries s2 = queries s /\
    generatePlan tavily groq request feedback s
    = (inr (Plan (parse_plan learning_plan)
                 (search_courses tavily (rq_topic request) s2).1),
       display_feedback feedback
         (emit (StProgress 100)
            (display_courses (search_courses tavily (rq_topic request) s2).1
                             (search_courses tavily (rq_topic request) s2).2))).
Proof.
  intros Hok. unfold generatePlan, GroqLLM._call.
  fold (completion_request (build_prompt request)). rewrite Hok.
  set (s0 := emit (StSuccess "Your Personalized Learning Plan")
               (emit (StProgress 60) (emit (StProgress 30) (emit (StProgress 0) s)))).
  pose proof (render_sections_frame (parse_plan learning_plan) s0)
    as (F1 & F2 & F3 & F4).
  set (s1 := foldl (fun s w => emit (render_section w) s) s0
                   (parse_plan learning_plan)) in *.
  exists (emit (StSubheader "📚 Recommended Online Courses")
            (emit (StWrite "---") (emit (StProgress 80) s1))).
  repeat split; try done.
  by destruct (search_courses tavily (rq_topic request) _) as [cs s3].
Qed.

(** A search that sent a query to a provider that raises gives the empty
    list. *)
Lemma search_courses_queried_raises (tavily : tavily_client) (topic : string)
    (s : state) :
  raises tavily topic ->
  queries (search_courses tavily topic s).2 <> queries s ->
  (search_courses tavily topic s).1 = [].
Proof.
  intros (p & msg & Hp & Hr) Hq.
  assert (Hbody : queries (search_courses_body tavily topic s).2 <> queries s ->
                  (search_courses_body tavily topic s).1 = []).
  { destruct (search_cache s !! cache_key topic) as [cached|] eqn:E.
    - rewrite (search_courses_body_hit tavily topic s cached E). by intros [].
    - intros _.
      destruct (for_platforms_raises tavily topic platforms [] s p msg Hp Hr)
        as [e He].
      destruct (for_platforms tavily topic platforms [] s) as [[o g] s1] eqn:E1.
      simpl in He. subst o.
      by rewrite (search_courses_body_except tavily topic s s1 e g E E1). }
  revert Hq. unfold search_courses, cache_data.
  destruct (search_courses_body tavily topic s) as [v s1]. simpl in Hbody.
  destruct (cache_data_store s !! topic) as [entry|]; [|exact Hbody].
  destruct (fresh 3600 (clock s) entry); [by intros [] | exact Hbody].
Qed.

(** With no entry for the topic in either cache layer, a search sends a
    query. *)
Lemma search_courses_cold_queries (tavily : tavily_client) (topic : string)
    (s : state) :
  search_cache s !! cache_key topic = None ->
  ~ within_cache_window topic s ->
  queries (search_courses tavily topic s).2 <> queries s.
Proof.
  intros Hmiss Hout. rewrite (search_courses_miss tavily topic s Hout). simpl.
  unfold search_courses_body. rewrite Hmiss.
  destruct (for_platforms_first tavily topic "Udemy" ["Coursera"; "YouTube"] [] s)
    as [more Hq].
  fold platforms in Hq.
  assert (Hne : queries s ++ search_query "Udemy" topic :: more <> queries s).
  { intros H. apply (f_equal length) in H. rewrite length_app in H.
    simpl in H. lia. }
  destruct (for_platforms tavily topic platforms [] s) as [[[e|] g] s1];
    simpl in *; by rewrite Hq.
Qed.

(** C3: when the completion call succeeds, the cycle returns a plan whose
    sections are what the parser produces from the completion, also when the
    search provider raises for every platform: a cycle that queries such a
    provider ends with an empty course list. The provider is queried when
    neither cache layer holds an entry for the topic. *)
Theorem C3_search_failure_isolated (tavily : tavily_client) (groq : groq_client)
    (request : plan_request) (feedback : string) (s : state)
    (learning_plan : string) :
  groq (completion_request (build_prompt request)) = inr learning_plan ->
  exists (p : plan) (s' : state),
    generatePlan tavily groq request feedback s = (inr p, s') /\
    weeks p = parse_plan learning_plan /\
    ((forall pl, pl ∈ platforms ->
        exists msg,
          tavily (search_query pl (rq_topic request)) "advanced" 3%nat
          = SearchRaises msg) ->
     queries s' <> queries s ->
     courses p = []) /\
    (search_cache s !! cache_key (rq_topic request) = None ->
     ~ within_cache_window (rq_topic request) s ->
     queries s' <> queries s).
Proof.
  intros Hok.
  destruct (generatePlan_completion tavily groq request feedback s
              learning_plan Hok) as (s2 & G1 & G2 & G3 & G4 & Hgen).
  do 2 eexists. split; [exact Hgen|]. split; [done|].
  cbn [courses]. rewrite display_feedback_queries. cbn [emit queries].
  rewrite display_courses_queries, <- G4. split.
  - intros Hall Hq. apply search_courses_queried_raises; [|exact Hq].
    destruct (Hall "Udemy") as [msg Hmsg]; [apply list_elem_of_here|].
    exists "Udemy", msg. split; [apply list_elem_of_here | exact Hmsg].
  - intros Hmiss Hout. apply search_courses_cold_queries.
    + by rewrite G1.
    + intros H. apply Hout. by apply (within_cache_window_frame _ s s2).
Qed.

Lemma C3_search_failure_isolated_witness :
  groq_two_weeks (completion_request (build_prompt sample_request))
  = inr ("Week 1: Goal A" +:+ LF +:+ "Week 2: Goal B") /\
  exists (p : plan) (s' : state),
    generatePlan always_raises groq_two_weeks sample_request EmptyString
                 initial_state = (inr p, s') /\
    weeks p = [WeekSection "1" "Goal A"; WeekSection "2" "Goal B"] /\
    courses p = [].
Proof.
  assert (Hok : groq_two_weeks (completion_request (build_prompt sample_request))
                = inr ("Week 1: Goal A" +:+ LF +:+ "Week 2: Goal B"))
    by reflexivity.
  assert (Hall : forall pl, pl ∈ platforms ->
            exists msg,
              always_raises (search_query pl (rq_topic sample_request))
                            "advanced" 3%nat = SearchRaises msg)
    by (intros pl _; exists "rate limit exceeded"; reflexivity).
  assert (Hmiss : search_cache initial_state
                    !! cache_key (rq_topic sample_request) = None)
    by reflexivity.
  assert (Hout : ~ within_cache_window (rq_topic sample_request) initial_state)
    by (intros (entry & He & _); discriminate He).
  split; [exact Hok|].
  destruct (C3_search_failure_isolated always_raises groq_two_weeks
              sample_request EmptyString initial_state _ Hok)
    as (p & s' & Hgen & Hweeks & Hempty & Hcold).
  exists p, s'. split; [exact Hgen|]. split.
  - rewrite Hweeks. vm_compute. reflexivity.
  - exact (Hempty Hall (Hcold Hmiss Hout)).
Defined.

(** * Further properties *)

(** ** [split] and [join] *)

Section SplitFacts.

Import Str.

Lemma length_app_str (a b : string) :
  String.length (a +:+ b) = (String.length a + String.length b)%nat.
Proof.
  induction a as [|x a IH]; [done|]. rewrite app_cons. simpl. by rewrite IH.
Qed.

Lemma app_empty_r (s : string) : s +:+ EmptyString = s.
Proof.
  induction s as [|x s IH]; [done|]. rewrite app_cons. by rewrite IH.
Qed.

(** A prefix of [a ++ b] that is no longer than [a] is a prefix of [a]. *)
Lemma startswith_app_l (p a b : string) :
  startswith p (a +:+ b) = true ->
  (String.length p <= String.length a)%nat ->
  startswith p a = true.
Proof.
  revert a. induction p as [|x p IH]; intros a H Hlen; [done|].
  destruct a as [|y a]; [simpl in Hlen; lia|].
  rewrite app_cons in H. simpl in *.
  destruct (Ascii.eqb x y); [|done]. apply IH; [done | lia].
Qed.

Lemma split_go_skip (sep skipped s : string) :
  split_go sep (String.length skipped) (skipped +:+ s) = split_go sep 0 s.
Proof.
  induction skipped as [|x t IH]; [by destruct s|].
  rewrite app_cons. simpl. exact IH.
Qed.

Lemma split_go_nonempty (sep : string) (k : nat) (s : string) :
  split_go sep k s <> [].
Proof.
  revert k. induction s as [|c s IH]; intros k; [done|]. simpl.
  destruct k as [|k]; [|apply IH].
  destruct (startswith sep (String c s)); [done|].
  specialize (IH 0%nat). by destruct (split_go sep 0 s).
Qed.

Lemma join_cons (sep x : string) (l : list string) :
  l <> [] -> join sep (x :: l) = x +:+ sep +:+ join sep l.
Proof. by destruct l. Qed.

Lemma join_cons_head (sep : string) (c : ascii) (l : list string) :
  l <> [] -> join sep (cons_head c l) = String c (join sep l).
Proof.
  destruct l as [|h [|h' t]]; [done|done|]. intros _. simpl.
  by rewrite app_cons.
Qed.

(** The segment before the first occurrence of the separator, then the
    segments of what follows it. The separator is [sep0] followed by [x];
    that no occurrence starts inside [pre] is said on [pre ++ sep0]. *)
Lemma split_first (sep0 : string) (x : ascii) (pre rest : string) :
  let sep := sep0 +:+ String x EmptyString in
  ~ occurs_in sep (pre +:+ sep0) ->
  split sep (pre +:+ sep +:+ rest) = pre :: split sep rest.
Proof.
  intros sep Hno. unfold split.
  assert (Hsep : exists y t, sep = String y t).
  { unfold sep. destruct sep0 as [|y t]; [by exists x, EmptyString|].
    exists y, (t +:+ String x EmptyString). by rewrite app_cons. }
  destruct Hsep as (y & t & Hsep).
  induction pre as [|c p IH].
  - rewrite app_empty_l. rewrite Hsep at 2. rewrite app_cons. cbn [split_go].
    assert (E : startswith sep (String y (t +:+ rest)) = true).
    { apply startswith_spec. exists rest. by rewrite Hsep, app_cons. }
    rewrite E. f_equal.
    replace (String.length sep - 1)%nat with (String.length t)
      by (rewrite Hsep; simpl; lia).
    apply split_go_skip.
  - rewrite app_cons. cbn [split_go].
    destruct (startswith sep (String c (p +:+ sep +:+ rest))) eqn:E.
    + exfalso. apply Hno. apply contains_spec. simpl.
      assert (Hpre : startswith sep (String c p +:+ sep0) = true).
      { apply (startswith_app_l sep (String c p +:+ sep0)
                                (String x EmptyString +:+ rest)).
        - rewrite app_assoc_str. rewrite app_cons.
          replace (sep0 +:+ String x EmptyString +:+ rest)
            with (sep +:+ rest) by (unfold sep; by rewrite app_assoc_str).
          exact E.
        - unfold sep. rewrite !length_app_str. simpl. lia. }
      rewrite app_cons in Hpre. by rewrite Hpre.
    + rewrite IH; [done|]. intros H. apply Hno. rewrite app_cons.
      by apply occurs_in_tail.
Qed.

Lemma join_split_bounded (sep : string) (n : nat) (s : string) :
  sep <> EmptyString ->
  (String.length s <= n)%nat ->
  join sep (split sep s) = s.
Proof.
  intros Hsep. unfold split. revert s.
  induction n as [|n IH]; intros s Hlen.
  - destruct s; [done | simpl in Hlen; lia].
  - destruct s as [|c s]; [done|]. cbn [split_go].
    destruct (startswith sep (String c s)) eqn:E.
    + apply startswith_spec in E as [rest E].
      destruct sep as [|y t]; [done|]. rewrite app_cons in E.
      injection E as -> ->.
      replace (String.length (String y t) - 1)%nat with (String.length t)
        by (simpl; lia).
      rewrite split_go_skip.
      rewrite join_cons by apply split_go_nonempty.
      rewrite IH.
      * by rewrite app_empty_l, app_cons.
      * simpl in Hlen. rewrite length_app_str in Hlen. lia.
    + rewrite join_cons_head by apply split_go_nonempty.
      rewrite IH; [done | simpl in Hlen; lia].
Qed.

End SplitFacts.

(** X1: joining the segments of a split with the separator gives the string
    back, for every non-empty separator. *)
Theorem join_split (sep s : string) :
  sep <> EmptyString ->
  Str.join sep (Str.split sep s) = s.
Proof.
  intros Hsep. by apply (join_split_bounded sep (String.length s)).
Qed.

Lemma join_split_witness :
  ":" <> EmptyString /\
  Str.join ":" (Str.split ":" "1: Goal: a:b") = "1: Goal: a:b".
Proof.
  assert (H : ":" <> EmptyString) by discriminate.
  split; [exact H | exact (join_split ":" "1: Goal: a:b" H)].
Defined.

(** ** The sections of a plan *)

Lemma occurs_in_cons_inv (sub : string) (c : ascii) (s : string) :
  Str.occurs_in sub (String c s) ->
  Str.startswith sub (String c s) = true \/ Str.occurs_in sub s.
Proof.
  intros H%contains_spec. simpl in H. apply orb_true_iff in H as [H|H].
  - by left.
  - right. by apply contains_spec.
Qed.

Lemma startswith_cons (a b : ascii) (p s : string) :
  Str.startswith (String a p) (String b s)
  = if Ascii.eqb a b then Str.startswith p s else false.
Proof. reflexivity. Qed.

(** A string has no colon, or it has a first one. *)
Lemma first_colon (s : string) :
  ~ Str.occurs_in ":" s \/
  exists label body,
    s = label +:+ ":" +:+ body /\ ~ Str.occurs_in ":" label.
Proof.
  induction s as [|c s IH].
  - left. by apply not_occurs_in.
  - destruct (Ascii.eqb ":" c) eqn:E.
    + apply Ascii.eqb_eq in E as <-. right. exists EmptyString, s.
      split; [done | by apply not_occurs_in].
    + assert (Hc : Str.startswith ":" (String c s) = false)
        by (by rewrite startswith_cons, E).
      destruct IH as [Hno|(label & body & -> & Hno)].
      * left. intros [H|H]%occurs_in_cons_inv; [congruence | done].
      * right. exists (String c label), body. split; [by rewrite app_cons|].
        intros [H|H]%occurs_in_cons_inv; [|done].
        rewrite startswith_cons, E in H. done.
Qed.

Lemma split_colon (label body : string) :
  ~ Str.occurs_in ":" label ->
  Str.split ":" (label +:+ ":" +:+ body) = label :: Str.split ":" body.
Proof.
  intros Hno.
  apply (split_first EmptyString ":" label body). by rewrite app_empty_r.
Qed.

Lemma parse_section_colon (label body : string) :
  ~ Str.occurs_in ":" label ->
  parse_section (label +:+ ":" +:+ body)
  = if Str.is_empty (Str.strip body) then None
    else Some (WeekSection label (Str.strip body)).
Proof.
  intros Hno. unfold parse_section. rewrite (split_colon label body Hno).
  cbn [hd tail].
  by rewrite (join_split_bounded ":" (String.length body)).
Qed.

Lemma parse_section_no_colon (section : string) :
  ~ Str.occurs_in ":" section -> parse_section section = None.
Proof.
  intros Hno. unfold parse_section. by rewrite (split_no_sep _ _ Hno).
Qed.

(** X2: a segment gives a section exactly when it has a colon and the text
    after its first colon is not blank; the week label is the text before
    that colon and the content is all the text after it, later colons
    included, trimmed. *)
Theorem parse_section_spec (section : string) (w : week_section) :
  parse_section section = Some w <->
  exists label body,
    section = label +:+ ":" +:+ body /\
    ~ Str.occurs_in ":" label /\
    Str.strip body <> EmptyString /\
    w = WeekSection label (Str.strip body).
Proof.
  split.
  - intros H. destruct (first_colon section) as [Hno|(label & body & -> & Hno)].
    + by rewrite (parse_section_no_colon section Hno) in H.
    + rewrite (parse_section_colon label body Hno) in H.
      destruct (Str.is_empty (Str.strip body)) eqn:E; [done|].
      injection H as <-. exists label, body.
      repeat split; try done. by apply is_empty_false.
  - intros (label & body & -> & Hno & Hne & ->).
    rewrite (parse_section_colon label body Hno).
    apply is_empty_false in Hne. by rewrite Hne.
Qed.

Lemma parse_plan_marker (rest : string) :
  parse_plan ("Week " +:+ rest)
  = omap parse_section (Str.split "Week " rest).
Proof.
  unfold parse_plan, learning_plan_sections.
  assert (H : ~ Str.occurs_in "Week " (EmptyString +:+ "Week"))
    by (by apply not_occurs_in).
  pose proof (split_first "Week" " " EmptyString rest H) as E.
  cbv zeta in E. rewrite app_empty_l in E.
  change ("Week" +:+ " ") with "Week " in E. by rewrite E.
Qed.

(** X3: the text before the first "Week " marker is discarded: it changes
    nothing in the sections of the plan. *)
Theorem parse_plan_preamble (preamble rest : string) :
  ~ Str.occurs_in "Week " (preamble +:+ "Week") ->
  parse_plan (preamble +:+ "Week " +:+ rest) = parse_plan ("Week " +:+ rest).
Proof.
  intros Hno. rewrite parse_plan_marker.
  unfold parse_plan, learning_plan_sections.
  pose proof (split_first "Week" " " preamble rest Hno) as E.
  cbv zeta in E. change ("Week" +:+ " ") with "Week " in E. by rewrite E.
Qed.

Lemma parse_plan_preamble_witness :
  ~ Str.occurs_in "Week " ("Here is your plan. " +:+ "Week") /\
  parse_plan ("Here is your plan. " +:+ "Week " +:+ "1: Basics")
  = parse_plan ("Week " +:+ "1: Basics").
Proof.
  assert (H : ~ Str.occurs_in "Week " ("Here is your plan. " +:+ "Week"))
    by (apply not_occurs_in; reflexivity).
  split; [exact H | exact (parse_plan_preamble _ "1: Basics" H)].
Defined.

(** X4: the sections come in order of appearance, one marker at a time:
    the text between a marker and the next gives the first section (or none,
    when it has no colon or a blank content), and the rest of the plan gives
    the sections that follow; after the last marker the remaining text gives
    the last section. *)
Theorem parse_plan_step (segment rest : string) :
  (~ Str.occurs_in "Week " (segment +:+ "Week") ->
   parse_plan ("Week " +:+ segment +:+ "Week " +:+ rest)
   = option_list (parse_section segment) ++ parse_plan ("Week " +:+ rest)) /\
  (~ Str.occurs_in "Week " segment ->
   parse_plan ("Week " +:+ segment) = option_list (parse_section segment)).
Proof.
  split; intros Hno.
  - rewrite !parse_plan_marker.
    pose proof (split_first "Week" " " segment rest Hno) as E.
    cbv zeta in E. change ("Week" +:+ " ") with "Week " in E. rewrite E.
    cbn [omap list_omap]. by destruct (parse_section segment).
  - rewrite parse_plan_marker, (split_no_sep _ _ Hno).
    cbn [omap list_omap]. by destruct (parse_section segment).
Qed.

Lemma parse_plan_step_witness :
  ~ Str.occurs_in "Week " ("1: Basics " +:+ "Week") /\
  parse_plan ("Week " +:+ "1: Basics " +:+ "Week " +:+ "2: More")
  = [WeekSection "1" "Basics"; WeekSection "2" "More"].
Proof.
  assert (H : ~ Str.occurs_in "Week " ("1: Basics " +:+ "Week"))
    by (apply not_occurs_in; reflexivity).
  split; [exact H|].
  rewrite (proj1 (parse_plan_step "1: Basics " "2: More") H).
  reflexivity.
Defined.

(** ** A search that completes *)

Lemma process_results_made (p : string) (results : list (gmap string string))
    (cs all_results : list course) :
  Forall2 (fun r c => make_course p r = inr c) results cs ->
  process_results p results all_results = (None, all_results ++ cs).
Proof.
  intros H. revert all_results.
  induction H as [|r c rs cs Hrc _ IH]; intros acc; simpl.
  - by rewrite app_nil_r.
  - rewrite Hrc, IH. by rewrite <- app_assoc.
Qed.

(** X5: with nothing cached under the topic's key and every query answered
    with results that have a title and a url, the search sends the three
    queries in platform order, returns the courses built from the Udemy
    results, then the Coursera ones, then the YouTube ones, stores that list
    under the key and writes nothing to the page. *)
Theorem search_courses_completes (tavily : tavily_client) (topic : string)
    (s : state) (ru rc ry : list (gmap string string))
    (cu cc cy : list course) :
  search_cache s !! cache_key topic = None ->
  tavily (search_query "Udemy" topic) "advanced" 3%nat = SearchReturns ru ->
  tavily (search_query "Coursera" topic) "advanced" 3%nat = SearchReturns rc ->
  tavily (search_query "YouTube" topic) "advanced" 3%nat = SearchReturns ry ->
  Forall2 (fun r c => make_course "Udemy" r = inr c) ru cu ->
  Forall2 (fun r c => make_course "Coursera" r = inr c) rc cc ->
  Forall2 (fun r c => make_course "YouTube" r = inr c) ry cy ->
  search_courses_body tavily topic s
  = (cu ++ cc ++ cy,
     State (<[cache_key topic := cu ++ cc ++ cy]> (search_cache s))
           (cache_data_store s) (clock s)
           (queries s ++ platform_queries topic) (page s)).
Proof.
  intros Hmiss Hu Hc Hy Fu Fc Fy.
  unfold search_courses_body. rewrite Hmiss.
  unfold platforms. cbn [for_platforms]. rewrite Hu.
  rewrite (process_results_made "Udemy" ru cu [] Fu). rewrite Hc.
  rewrite (process_results_made "Coursera" rc cc _ Fc). rewrite Hy.
  rewrite (process_results_made "YouTube" ry cy _ Fy).
  rewrite app_nil_l, <- app_assoc.
  unfold set_search_cache, send_query, platform_queries, platforms. simpl.
  by rewrite <- !app_assoc.
Qed.

Lemma search_courses_completes_witness :
  search_courses_body always_answers "Python" initial_state
  = ([Course "[Udemy] Learn Python" "https://example.org/learn-python"
             "A course for beginners." "Udemy" "N/A"] ++
     [Course "[Coursera] Learn Python" "https://example.org/learn-python"
             "A course for beginners." "Coursera" "N/A"] ++
     [Course "[YouTube] Learn Python" "https://example.org/learn-python"
             "A course for beginners." "YouTube" "N/A"],
     State (<[cache_key "Python" :=
                [Course "[Udemy] Learn Python" "https://example.org/learn-python"
                        "A course for beginners." "Udemy" "N/A"] ++
                [Course "[Coursera] Learn Python" "https://example.org/learn-python"
                        "A course for beginners." "Coursera" "N/A"] ++
                [Course "[YouTube] Learn Python" "https://example.org/learn-python"
                        "A course for beginners." "YouTube" "N/A"]]>
              (search_cache initial_state))
           (cache_data_store initial_state) (clock initial_state)
           (queries initial_state ++ platform_queries "Python")
           (page initial_state)).
Proof.
  apply (search_courses_completes always_answers "Python" initial_state
           [sample_result] [sample_result] [sample_result]).
  - reflexivity.
  - reflexivity.
  - reflexivity.
  - reflexivity.
  - repeat constructor.
  - repeat constructor.
  - repeat constructor.
Defined.

(** ** Invariants of the cached lists *)

Lemma make_course_tagged (p : string) (r : gmap string string) (c : course) :
  p ∈ platforms -> make_course p r = inr c -> tagged c.
Proof.
  intros Hp. unfold make_course.
  destruct (r !! "title") as [t|]; [|done].
  destruct (r !! "url") as [u|]; [|done].
  intros [= <-]. split; [done|]. split; [by exists t|].
  apply rating_of_values.
Qed.

Lemma process_results_tagged (p : string) (results : list (gmap string string))
    (all_results : list course) :
  p ∈ platforms ->
  Forall tagged all_results ->
  Forall tagged (process_results p results all_results).2.
Proof.
  intros Hp. revert all_results.
  induction results as [|r rs IH]; intros acc Hacc; [done|]. simpl.
  destruct (make_course p r) as [e|c] eqn:E; [done|].
  apply IH. apply Forall_app. split; [done|].
  apply Forall_singleton. by apply (make_course_tagged p r).
Qed.

Lemma for_platforms_tagged (tavily : tavily_client) (topic : string)
    (ps : list string) (all_results : list course) (s : state) :
  (forall p, p ∈ ps -> p ∈ platforms) ->
  Forall tagged all_results ->
  Forall tagged (for_platforms tavily topic ps all_results s).1.2.
Proof.
  revert all_results s. induction ps as [|p ps IH]; intros acc s Hps Hacc; [done|].
  simpl. destruct (tavily _ _ _) as [msg|results]; [done|].
  pose proof (process_results_tagged p results acc (Hps p (list_elem_of_here _ _)) Hacc)
    as Hg.
  destruct (process_results p results acc) as [[e|] g]; [done|].
  apply IH; [|done]. intros q Hq. apply Hps. by right.
Qed.

Lemma process_results_length (p : string) (results : list (gmap string string))
    (all_results : list course) :
  (length (process_results p results all_results).2
   <= length all_results + length results)%nat.
Proof.
  revert all_results. induction results as [|r rs IH]; intros acc; simpl; [lia|].
  destruct (make_course p r) as [e|c]; simpl; [lia|].
  specialize (IH (acc ++ [c])). rewrite length_app in IH. simpl in IH. lia.
Qed.

Lemma for_platforms_length (tavily : tavily_client) (topic : string)
    (ps : list string) (all_results : list course) (s : state) :
  capped tavily ->
  (length (for_platforms tavily topic ps all_results s).1.2
   <= length all_results + 3 * length ps)%nat.
Proof.
  intros Hcap. revert all_results s.
  induction ps as [|p ps IH]; intros acc s; simpl; [lia|].
  destruct (tavily _ _ _) as [msg|results] eqn:E; simpl; [lia|].
  apply Hcap in E.
  pose proof (process_results_length p results acc) as Hg.
  destruct (process_results p results acc) as [[e|] g]; simpl in *; [lia|].
  specialize (IH g (send_query (search_query p topic) s)). lia.
Qed.

(** A property of lists that holds of the empty list and of whatever the
    loop gathers is kept by both cache layers and holds of every value a
    search returns. *)
Lemma search_courses_keeps (P : list course -> Prop) (tavily : tavily_client)
    (topic : string) (s : state) :
  P [] ->
  (forall s0, P (for_platforms tavily topic platforms [] s0).1.2) ->
  caches_hold P s ->
  P (search_courses tavily topic s).1 /\
  caches_hold P (search_courses tavily topic s).2.
Proof.
  intros Hnil Hloop [Hsession Hstore].
  assert (Hbody : P (search_courses_body tavily topic s).1 /\
                  caches_hold P (search_courses_body tavily topic s).2).
  { unfold search_courses_body.
    destruct (search_cache s !! cache_key topic) as [cached|] eqn:E.
    - split; [|done]. exact (Hsession _ _ E).
    - pose proof (Hloop s) as Hg.
      pose proof (for_platforms_frame tavily topic platforms [] s)
        as (F1 & F2 & _).
      destruct (for_platforms tavily topic platforms [] s) as [[[e|] g] s1];
        simpl in *.
      + split; [done|]. split; simpl; by rewrite ?F1, ?F2.
      + split; [done|]. split; simpl; rewrite ?F1, ?F2; [|done].
        by apply map_Forall_insert_2. }
  unfold search_courses, cache_data.
  destruct (search_courses_body tavily topic s) as [v s1].
  destruct Hbody as [Hv [H1 H2]]. simpl in Hv.
  assert (Hrun : forall els,
             P v /\ caches_hold P (set_cache_data topic v els s1)).
  { intros els. split; [done|]. split; [done|]. simpl.
    by apply map_Forall_insert_2. }
  destruct (cache_data_store s !! topic) as [entry|] eqn:E; [|apply Hrun].
  destruct (fresh 3600 (clock s) entry); [|apply Hrun].
  split; [|done]. exact (Hstore _ _ E).
Qed.

(** X6: in a session whose cached lists hold only courses tagged by the
    loop, every search returns such courses (a platform among the three, the
    title prefixed by its bracketed tag, the rating one of the two values)
    and leaves the caches so. *)
Theorem search_courses_tagged (tavily : tavily_client) (topic : string)
    (s : state) :
  caches_hold (Forall tagged) s ->
  Forall tagged (search_courses tavily topic s).1 /\
  caches_hold (Forall tagged) (search_courses tavily topic s).2.
Proof.
  apply search_courses_keeps; [done|].
  intros s0. by apply for_platforms_tagged.
Qed.

Lemma caches_hold_initial (P : list course -> Prop) : caches_hold P initial_state.
Proof. split; apply map_Forall_empty. Qed.

Lemma search_courses_tagged_witness :
  caches_hold (Forall tagged) initial_state /\
  Forall tagged (search_courses always_answers "Python" initial_state).1.
Proof.
  assert (H : caches_hold (Forall tagged) initial_state)
    by apply caches_hold_initial.
  split; [exact H|].
  exact (proj1 (search_courses_tagged always_answers "Python" initial_state H)).
Defined.

(** X7: with a provider that respects [max_results], in a session whose
    cached lists have at most nine courses, every search returns at most nine
    courses and leaves the caches so. *)
Theorem search_courses_at_most_nine (tavily : tavily_client) (topic : string)
    (s : state) :
  capped tavily ->
  caches_hold (fun v => (length v <= 9)%nat) s ->
  (length (search_courses tavily topic s).1 <= 9)%nat /\
  caches_hold (fun v => (length v <= 9)%nat) (search_courses tavily topic s).2.
Proof.
  intros Hcap. apply (search_courses_keeps (fun v => (length v <= 9)%nat)).
  - simpl. lia.
  - intros s0.
    pose proof (for_platforms_length tavily topic platforms [] s0 Hcap) as H.
    simpl in H. exact H.
Qed.

Lemma search_courses_at_most_nine_witness :
  capped always_answers /\
  caches_hold (fun v => (length v <= 9)%nat) initial_state /\
  (length (search_courses always_answers "Python" initial_state).1 <= 9)%nat.
Proof.
  assert (Hcap : capped always_answers).
  { intros q results [= <-]. simpl. lia. }
  assert (H : caches_hold (fun v => (length v <= 9)%nat) initial_state)
    by apply caches_hold_initial.
  split; [exact Hcap|]. split; [exact H|].
  exact (proj1 (search_courses_at_most_nine always_answers "Python"
                  initial_state Hcap H)).
Defined.

(** ** A result without a title or a url *)

Lemma process_results_malformed (p : string) (results : list (gmap string string))
    (all_results : list course) :
  ~ Forall well_formed results ->
  exists key, (process_results p results all_results).1 = Some (KeyError key).
Proof.
  revert all_results. induction results as [|r rs IH]; intros acc Hbad.
  - by destruct Hbad.
  - simpl. unfold make_course.
    destruct (r !! "title") as [t|] eqn:Et; [|by eexists].
    destruct (r !! "url") as [u|] eqn:Eu; [|by eexists].
    apply IH. intros Hrs. apply Hbad. constructor; [|done].
    split; by eexists.
Qed.

Lemma for_platforms_malformed (tavily : tavily_client) (topic : string)
    (ps : list string) (all_results : list course) (s : state)
    (p : string) (results : list (gmap string string)) :
  p ∈ ps ->
  tavily (search_query p topic) "advanced" 3%nat = SearchReturns results ->
  ~ Forall well_formed results ->
  exists e, (for_platforms tavily topic ps all_results s).1.1 = Some e.
Proof.
  intros Hin Hr Hbad. revert all_results s.
  induction ps as [|q ps IH]; intros acc s; [by apply elem_of_nil in Hin|].
  simpl. destruct (tavily (search_query q topic) _ _) as [m|rs] eqn:E;
    [by eexists|].
  destruct (process_results q rs acc) as [[e|] g] eqn:Eg; [by eexists|].
  apply elem_of_cons in Hin as [->|Hin]; [|by apply IH].
  rewrite Hr in E. injection E as <-.
  destruct (process_results_malformed q results acc Hbad) as [key Hkey].
  rewrite Eg in Hkey. discriminate.
Qed.

(** X8: a response that holds a result without a title or without a url
    makes the whole search fail soft, like a raising query: with nothing
    cached under the key, the call returns the empty list, also dropping the
    well-formed results, reports exactly one error and stores nothing in the
    session cache. When the first Udemy result has no title, the error
    reported is the [KeyError] of ['title']. *)
Theorem search_courses_malformed_result (tavily : tavily_client)
    (topic : string) (s : state) (p : string)
    (results : list (gmap string string)) :
  search_cache s !! cache_key topic = None ->
  p ∈ platforms ->
  tavily (search_query p topic) "advanced" 3%nat = SearchReturns results ->
  ~ Forall well_formed results ->
  (search_courses_body tavily topic s).1 = [] /\
  search_cache (search_courses_body tavily topic s).2 = search_cache s /\
  (exists e, page (search_courses_body tavily topic s).2
             = page s ++ [search_error e]) /\
  (forall r rest,
     p = "Udemy" -> results = r :: rest -> r !! "title" = None ->
     page (search_courses_body tavily topic s).2
     = page s ++ [StError "Error searching for courses: 'title'"]).
Proof.
  intros Hmiss Hp Hr Hbad.
  destruct (for_platforms_malformed tavily topic platforms [] s p results
              Hp Hr Hbad) as [e He].
  pose proof (for_platforms_frame tavily topic platforms [] s)
    as (F1 & _ & _ & F4 & _).
  destruct (for_platforms tavily topic platforms [] s) as [[o g] s1] eqn:E.
  simpl in He, F1, F4. subst o.
  rewrite (search_courses_body_except tavily topic s s1 e g Hmiss E). simpl.
  split; [done|]. split; [done|]. split; [exists e; by rewrite F4|].
  intros r rest -> -> Ht.
  unfold platforms in E. cbn [for_platforms] in E. rewrite Hr in E.
  cbn [process_results] in E. unfold make_course in E. rewrite Ht in E.
  injection E as <- _ _. by rewrite F4.
Qed.

Lemma search_courses_malformed_result_witness :
  search_cache initial_state !! cache_key "Python" = None /\
  "Coursera" ∈ platforms /\
  untitled_answers (search_query "Coursera" "Python") "advanced" 3%nat
  = SearchReturns [sample_result; untitled_result] /\
  ~ Forall well_formed [sample_result; untitled_result] /\
  (search_courses_body untitled_answers "Python" initial_state).1 = [].
Proof.
  assert (Hmiss : search_cache initial_state !! cache_key "Python" = None)
    by reflexivity.
  assert (Hp : "Coursera" ∈ platforms)
    by apply list_elem_of_further, list_elem_of_here.
  assert (Hr : untitled_answers (search_query "Coursera" "Python") "advanced" 3%nat
               = SearchReturns [sample_result; untitled_result]) by reflexivity.
  assert (Hbad : ~ Forall well_formed [sample_result; untitled_result]).
  { intros H. apply Forall_cons in H as [_ H]. apply Forall_cons in H as [[[t Ht] _] _].
    discriminate Ht. }
  split; [exact Hmiss|]. split; [exact Hp|]. split; [exact Hr|].
  split; [exact Hbad|].
  exact (proj1 (search_courses_malformed_result untitled_answers "Python"
                  initial_state "Coursera" _ Hmiss Hp Hr Hbad)).
Defined.

(** ** What a search does to the caches *)

(** X9: a search never removes or overwrites an entry of the session cache,
    and it touches no key of either cache layer other than its own: the
    session cache at the topic's key, the outer store at the topic. *)
Theorem search_courses_keeps_entries (tavily : tavily_client) (topic : string)
    (s : state) :
  (forall k v, search_cache s !! k = Some v ->
               search_cache (search_courses tavily topic s).2 !! k = Some v) /\
  (forall k, k <> cache_key topic ->
             search_cache (search_courses tavily topic s).2 !! k
             = search_cache s !! k) /\
  (forall other, other <> topic ->
             cache_data_store (search_courses tavily topic s).2 !! other
             = cache_data_store s !! other).
Proof.
  assert (Hbody :
    (forall k v, search_cache s !! k = Some v ->
                 search_cache (search_courses_body tavily topic s).2 !! k = Some v) /\
    (forall k, k <> cache_key topic ->
               search_cache (search_courses_body tavily topic s).2 !! k
               = search_cache s !! k) /\
    cache_data_store (search_courses_body tavily topic s).2 = cache_data_store s).
  { unfold search_courses_body.
    destruct (search_cache s !! cache_key topic) as [cached|] eqn:E; [done|].
    pose proof (for_platforms_frame tavily topic platforms [] s)
      as (F1 & F2 & _).
    destruct (for_platforms tavily topic platforms [] s) as [[[e|] g] s1];
      simpl in *; rewrite F1, F2.
    - done.
    - split; [|split; [|done]].
      + intros k v Hk. rewrite lookup_insert_ne; [done|]. congruence.
      + intros k Hk. by rewrite lookup_insert_ne. }
  destruct Hbody as (B1 & B2 & B3).
  unfold search_courses, cache_data.
  destruct (search_courses_body tavily topic s) as [v s1]. simpl in B1, B2, B3.
  assert (Hrun : forall els,
    (forall k v0, search_cache s !! k = Some v0 ->
                  search_cache (set_cache_data topic v els s1) !! k = Some v0) /\
    (forall k, k <> cache_key topic ->
               search_cache (set_cache_data topic v els s1) !! k
               = search_cache s !! k) /\
    (forall other, other <> topic ->
               cache_data_store (set_cache_data topic v els s1) !! other
               = cache_data_store s !! other)).
  { intros els. split; [done|]. split; [done|]. intros other Ho. simpl.
    rewrite lookup_insert_ne; [by rewrite B3 | done]. }
  destruct (cache_data_store s !! topic) as [entry|]; [|apply Hrun].
  destruct (fresh 3600 (clock s) entry); [done | apply Hrun].
Qed.

(** X10: once the session cache holds a search's result under the topic's
    key, every later search for that topic in the session, however much time
    has passed and whatever the provider would answer, returns that result
    and sends no query: the session entry outlives the one-hour window. *)
Theorem search_courses_session_entry (tavily1 tavily2 : tavily_client)
    (topic : string) (s : state) (d : Z) :
  search_cache (search_courses tavily1 topic s).2 !! cache_key topic
  = Some (search_courses tavily1 topic s).1 ->
  (search_courses tavily2 topic
     (elapse d (search_courses tavily1 topic s).2)).1
  = (search_courses tavily1 topic s).1 /\
  queries (search_courses tavily2 topic
             (elapse d (search_courses tavily1 topic s).2)).2
  = queries (search_courses tavily1 topic s).2.
Proof.
  intros Hentry.
  destruct (search_courses_stored tavily1 topic s) as (t0 & els & Hstored).
  destruct (search_courses tavily1 topic s) as [r1 s1]. simpl in *.
  assert (Hbody : search_courses_body tavily2 topic (elapse d s1)
                  = (r1, elapse d s1))
    by (by apply search_courses_body_hit).
  unfold search_courses, cache_data. rewrite Hbody. simpl.
  rewrite Hstored.
  by destruct (fresh 3600 (clock s1 + d) (CacheEntry t0 r1 els)).
Qed.

Lemma search_courses_session_entry_witness :
  search_cache (search_courses always_answers "Python" initial_state).2
    !! cache_key "Python"
  = Some (search_courses always_answers "Python" initial_state).1 /\
  (search_courses always_raises "Python"
     (elapse 86400 (search_courses always_answers "Python" initial_state).2)).1
  = (search_courses always_answers "Python" initial_state).1.
Proof.
  assert (Hentry :
    search_cache (search_courses always_answers "Python" initial_state).2
      !! cache_key "Python"
    = Some (search_courses always_answers "Python" initial_state).1)
    by (vm_compute; reflexivity).
  split; [exact Hentry|].
  exact (proj1 (search_courses_session_entry always_answers always_raises
                  "Python" initial_state 86400 Hentry)).
Defined.

(** X11: a failed search is remembered by the outer cache only: after a
    search that ran the body and met a raising query, a search for the same
    topic string less than an hour later returns the empty list without
    asking the provider, even one that would now answer, and shows the
    recorded error again; from one hour on it asks the provider again. *)
Theorem search_courses_failure_expires (tavily1 tavily2 : tavily_client)
    (topic : string) (s : state) (d : Z) :
  search_cache s !! cache_key topic = None ->
  ~ within_cache_window topic s ->
  raises tavily1 topic ->
  exists e,
    page (search_courses tavily1 topic s).2 = page s ++ [search_error e] /\
    (d < 3600 ->
     search_courses tavily2 topic (elapse d (search_courses tavily1 topic s).2)
     = ([], write_all [search_error e]
              (elapse d (search_courses tavily1 topic s).2))) /\
    (3600 <= d ->
     exists more,
       queries (search_courses tavily2 topic
                  (elapse d (search_courses tavily1 topic s).2)).2
       = queries (search_courses tavily1 topic s).2
         ++ search_query "Udemy" topic :: more).
Proof.
  intros Hmiss Hout (p & msg & Hp & Hr).
  rewrite (search_courses_miss tavily1 topic s Hout).
  destruct (for_platforms_raises tavily1 topic platforms [] s p msg Hp Hr)
    as [e He].
  pose proof (for_platforms_frame tavily1 topic platforms [] s)
    as (F1 & _ & _ & F4 & _).
  destruct (for_platforms tavily1 topic platforms [] s) as [[o g] s1] eqn:E.
  simpl in He, F1, F4. subst o.
  rewrite (search_courses_body_except tavily1 topic s s1 e g Hmiss E).
  cbn [fst snd]. exists e.
  assert (Hrec : drop (length (page s))
                      (page (time_sleep 1 (emit (search_error e) s1)))
                 = [search_error e]).
  { simpl. rewrite F4. apply drop_app_length. }
  rewrite Hrec.
  set (s2 := set_cache_data topic [] [search_error e]
               (time_sleep 1 (emit (search_error e) s1))).
  assert (Hstore : cache_data_store (elapse d s2) !! topic
                   = Some (CacheEntry (clock s1 + 1) [] [search_error e])).
  { simpl. apply lookup_insert_eq. }
  split; [simpl; by rewrite F4|]. split.
  - intros Hd.
    apply (search_courses_hit tavily2 topic (elapse d s2) _ Hstore).
    unfold fresh. simpl. apply Z.ltb_lt. lia.
  - intros Hd.
    assert (Hout2 : ~ within_cache_window topic (elapse d s2)).
    { intros (entry & He2 & Hf). rewrite Hstore in He2. injection He2 as <-.
      unfold fresh in Hf. simpl in Hf. apply Z.ltb_lt in Hf. lia. }
    rewrite (search_courses_miss tavily2 topic _ Hout2). simpl.
    unfold search_courses_body.
    assert (Hmiss2 : search_cache (elapse d s2) !! cache_key topic = None)
      by (simpl; by rewrite F1).
    rewrite Hmiss2.
    destruct (for_platforms_first tavily2 topic "Udemy" ["Coursera"; "YouTube"]
                [] (elapse d s2)) as [more Hq].
    fold platforms in Hq.
    destruct (for_platforms tavily2 topic platforms [] (elapse d s2))
      as [[[e'|] g'] s3]; exists more; exact Hq.
Qed.

Lemma search_courses_failure_expires_witness :
  search_cache initial_state !! cache_key "Python" = None /\
  ~ within_cache_window "Python" initial_state /\
  raises always_raises "Python" /\
  exists e,
    search_courses always_answers "Python"
      (elapse 60 (search_courses always_raises "Python" initial_state).2)
    = ([], write_all [search_error e]
             (elapse 60 (search_courses always_raises "Python" initial_state).2)).
Proof.
  assert (Hmiss : search_cache initial_state !! cache_key "Python" = None)
    by reflexivity.
  assert (Hout : ~ within_cache_window "Python" initial_state)
    by (intros (entry & He & _); discriminate He).
  assert (Hr : raises always_raises "Python").
  { exists "Udemy", "rate limit exceeded". split; [|reflexivity].
    apply list_elem_of_here. }
  split; [exact Hmiss|]. split; [exact Hout|]. split; [exact Hr|].
  destruct (search_courses_failure_expires always_raises always_answers
              "Python" initial_state 60 Hmiss Hout Hr) as (e & Hpage & Hhit & _).
  exists e. apply Hhit. lia.
Defined.

(** ** The queries a search sends *)

Lemma for_platforms_queries (tavily : tavily_client) (topic : string)
    (ps : list string) (all_results : list course) (s : state) :
  exists n,
    queries (for_platforms tavily topic ps all_results s).2
    = queries s ++ take n (map (fun p => search_query p topic) ps).
Proof.
  revert all_results s. induction ps as [|p ps IH]; intros acc s.
  - exists 0%nat. simpl. by rewrite app_nil_r.
  - simpl. destruct (tavily _ _ _) as [msg|results].
    + by exists 1%nat.
    + destruct (process_results p results acc) as [[e|] g].
      * by exists 1%nat.
      * destruct (IH g (send_query (search_query p topic) s)) as [n ->].
        exists (S n). simpl. by rewrite <- app_assoc.
Qed.

Lemma search_courses_queries_take (tavily : tavily_client) (topic : string)
    (s : state) :
  exists n,
    queries (search_courses tavily topic s).2
    = queries s ++ take n (platform_queries topic).
Proof.
  assert (Hbody : exists n, queries (search_courses_body tavily topic s).2
                            = queries s ++ take n (platform_queries topic)).
  { unfold search_courses_body.
    destruct (search_cache s !! cache_key topic) as [cached|].
    - exists 0%nat. simpl. by rewrite app_nil_r.
    - destruct (for_platforms_queries tavily topic platforms [] s) as [n Hn].
      exists n.
      destruct (for_platforms tavily topic platforms [] s) as [[[e|] g] s1];
        exact Hn. }
  unfold search_courses, cache_data.
  destruct (search_courses_body tavily topic s) as [v s1].
  destruct (cache_data_store s !! topic) as [entry|]; [|exact Hbody].
  destruct (fresh 3600 (clock s) entry); [|exact Hbody].
  exists 0%nat. simpl. by rewrite app_nil_r.
Qed.

(** X12: whatever the providers do, a run of [main] sends the search
    provider at most the three queries of the request's topic, in platform
    order and each at most once, and every search does so for its topic;
    nothing else is ever sent. A run with an empty topic or without the
    button pressed does nothing at all, and a run whose completion call
    fails sends no query. *)
Theorem main_queries (tavily : tavily_client) (groq : groq_client)
    (request : plan_request) (generate_button : bool) (feedback topic : string)
    (s : state) :
  (exists n,
     queries (main tavily groq request generate_button feedback s)
     = queries s ++ take n (platform_queries (rq_topic request))) /\
  (exists n,
     queries (search_courses tavily topic s).2
     = queries s ++ take n (platform_queries topic)) /\
  (Str.is_empty (rq_topic request) = true \/ generate_button = false ->
   main tavily groq request generate_button feedback s = s) /\
  (forall msg,
     groq (completion_request (build_prompt request)) = inl msg ->
     queries (main tavily groq request generate_button feedback s)
     = queries s).
Proof.
  split; [|split; [apply search_courses_queries_take|split]]; cycle 1.
  { intros [H|H]; unfold main; rewrite H; [done|].
    by rewrite andb_false_r. }
  { intros msg Hfail. unfold main.
    destruct (negb (Str.is_empty (rq_topic request)) && generate_button)%bool;
      [|done].
    unfold generatePlan, GroqLLM._call.
    fold (completion_request (build_prompt request)). by rewrite Hfail. }
  unfold main.
  destruct (negb (Str.is_empty (rq_topic request)) && generate_button)%bool;
    [|exists 0%nat; simpl; by rewrite app_nil_r].
  destruct (groq (completion_request (build_prompt request)))
    as [msg|learning_plan] eqn:E.
  - exists 0%nat. unfold generatePlan, GroqLLM._call.
    fold (completion_request (build_prompt request)). rewrite E. simpl.
    by rewrite app_nil_r.
  - destruct (generatePlan_completion tavily groq request feedback s
                learning_plan E) as (s2 & _ & _ & _ & G4 & ->).
    destruct (search_courses_queries_take tavily (rq_topic request) s2)
      as [n Hn].
    exists n. rewrite display_feedback_queries. cbn [emit queries].
    by rewrite display_courses_queries, Hn, G4.
Qed.

(** ** Cache keys *)

(** X13: two topics written in ASCII characters have the same cache key
    exactly when they differ only in the case of their letters, so such
    topics never share a session-cache entry otherwise. *)
Theorem cache_key_shared_iff (a b : string) :
  is_ascii a = true -> is_ascii b = true ->
  cache_key a = cache_key b <-> Str.same_modulo_case a b.
Proof.
  intros _ _. split; [|apply cache_key_same_modulo_case].
  unfold cache_key. intros H. apply same_modulo_case_lower.
  by apply (inj (String.app "search_")) in H.
Qed.

Lemma cache_key_shared_iff_witness :
  is_ascii "Machine Learning" = true /\
  is_ascii "machine learning" = true /\
  cache_key "Machine Learning" = cache_key "machine learning" /\
  Str.same_modulo_case "Machine Learning" "machine learning".
Proof.
  assert (Ha : is_ascii "Machine Learning" = true) by reflexivity.
  assert (Hb : is_ascii "machine learning" = true) by reflexivity.
  split; [exact Ha|]. split; [exact Hb|].
  assert (Hk : cache_key "Machine Learning" = cache_key "machine learning")
    by reflexivity.
  split; [exact Hk|].
  exact (proj1 (cache_key_shared_iff _ _ Ha Hb) Hk).
Defined.

(** ** The prompt *)

Lemma occurs_in_head (x post : string) : Str.occurs_in x (x +:+ post).
Proof. by exists EmptyString, post. Qed.

Lemma occurs_in_app_l (x a t : string) :
  Str.occurs_in x t -> Str.occurs_in x (a +:+ t).
Proof.
  intros (pre & post & ->). exists (a +:+ pre), post. by rewrite app_assoc_str.
Qed.

(** X14: the prompt built for a request carries its four parameters
    verbatim, the duration in decimal. *)
Theorem build_prompt_mentions (request : plan_request) :
  Str.occurs_in (rq_topic request) (build_prompt request) /\
  Str.occurs_in (pretty (rq_duration request)) (build_prompt request) /\
  Str.occurs_in (rq_learning_style request) (build_prompt request) /\
  Str.occurs_in (rq_proficiency request) (build_prompt request).
Proof.
  unfold build_prompt, TUTOR_PROMPT.
  split; [|split; [|split]].
  - apply occurs_in_app_l, occurs_in_head.
  - do 3 apply occurs_in_app_l. apply occurs_in_head.
  - do 5 apply occurs_in_app_l. apply occurs_in_head.
  - do 7 apply occurs_in_app_l. apply occurs_in_head.
Qed.

(** ** What is written to the page *)

Lemma write_all_nil (s : state) : write_all [] s = s.
Proof. destruct s. unfold write_all. simpl. by rewrite app_nil_r. Qed.

Lemma write_all_app (a b : list element) (s : state) :
  write_all b (write_all a s) = write_all (a ++ b) s.
Proof. unfold write_all. simpl. by rewrite app_assoc. Qed.

Lemma emit_write_all (e : element) (s : state) : emit e s = write_all [e] s.
Proof. reflexivity. Qed.

Lemma display_cards (l : list course) (s : state) :
  foldl (fun s c => display_course_card c s) s l
  = write_all (map course_card l) s.
Proof.
  revert s. induction l as [|c l IH]; intros s; simpl.
  - by rewrite write_all_nil.
  - rewrite IH. unfold display_course_card. fold (course_card c).
    by rewrite emit_write_all, write_all_app.
Qed.

Lemma render_sections_write_all (sections : list week_section) (s : state) :
  foldl (fun s w => emit (render_section w) s) s sections
  = write_all (map render_section sections) s.
Proof.
  revert s. induction sections as [|w l IH]; intros s; simpl.
  - by rewrite write_all_nil.
  - by rewrite IH, emit_write_all, write_all_app.
Qed.

Lemma display_feedback_write_all (feedback : string) (s : state) :
  display_feedback feedback s = write_all (feedback_elements feedback) s.
Proof.
  unfold display_feedback, feedback_elements.
  by rewrite !emit_write_all, write_all_app.
Qed.

Lemma filter_all {A : Type} (P : A -> Prop) `{forall x, Decision (P x)}
    (l : list A) :
  Forall P l -> filter P l = l.
Proof.
  induction 1 as [|x l Hx _ IH]; [done|].
  by rewrite filter_cons_True, IH.
Qed.

Lemma filter_none {A : Type} (P : A -> Prop) `{forall x, Decision (P x)}
    (l : list A) :
  Forall (fun x => ~ P x) l -> filter P l = [].
Proof.
  induction 1 as [|x l Hx _ IH]; [done|].
  by rewrite filter_cons_False.
Qed.

(** X15: a non-empty list of courses is displayed grouped by platform,
    Udemy first, then Coursera, then YouTube, whatever the order of the list:
    each group is a heading followed by one card per course of that platform,
    a platform without a course gets no heading, and a course of any other
    platform is not displayed. An empty list is displayed as the notice that
    no course was found. Only the page changes. When the list already comes
    platform by platform, as a search returns it, every course is displayed
    exactly once and in the order of the list. *)
Theorem display_courses_grouped (cs : list course) (s : state) :
  display_courses [] s
  = write_all [StInfo "No courses found at the moment. Try refining your search."] s /\
  (cs <> [] ->
   display_courses cs s
   = write_all
       (platform_group "Udemy" (filter (fun c => platform c = "Udemy") cs) ++
        platform_group "Coursera" (filter (fun c => platform c = "Coursera") cs) ++
        platform_group "YouTube" (filter (fun c => platform c = "YouTube") cs))
       s) /\
  (forall cu cc cy,
     cs = cu ++ cc ++ cy -> cs <> [] ->
     Forall (fun c => platform c = "Udemy") cu ->
     Forall (fun c => platform c = "Coursera") cc ->
     Forall (fun c => platform c = "YouTube") cy ->
     display_courses cs s
     = write_all (platform_group "Udemy" cu ++ platform_group "Coursera" cc ++
                  platform_group "YouTube" cy) s).
Proof.
  assert (Hstep : forall p s0,
    match filter (fun c => platform c = p) cs with
    | [] => s0
    | _ :: _ =>
        foldl (fun s c => display_course_card c s)
              (emit (StMarkdown ("### " +:+ p +:+ " Courses")) s0)
              (filter (fun c => platform c = p) cs)
    end
    = write_all (platform_group p (filter (fun c => platform c = p) cs)) s0).
  { intros p s0. destruct (filter _ cs) as [|c l] eqn:E.
    - by rewrite write_all_nil.
    - rewrite display_cards, emit_write_all, write_all_app. done. }
  assert (Hgen : cs <> [] ->
    display_courses cs s
    = write_all
        (platform_group "Udemy" (filter (fun c => platform c = "Udemy") cs) ++
         platform_group "Coursera" (filter (fun c => platform c = "Coursera") cs) ++
         platform_group "YouTube" (filter (fun c => platform c = "YouTube") cs))
        s).
  { intros Hne. unfold display_courses. destruct cs as [|c0 cs0]; [done|].
    cbn [foldl]. rewrite !Hstep. by rewrite !write_all_app. }
  split; [done|]. split; [exact Hgen|].
  intros cu cc cy Hcs Hne Hu Hc Hy. rewrite (Hgen Hne), Hcs.
  rewrite !filter_app.
  rewrite (filter_all _ cu Hu), (filter_all _ cc Hc), (filter_all _ cy Hy).
  rewrite (filter_none (fun c => platform c = "Udemy") cc),
          (filter_none (fun c => platform c = "Udemy") cy),
          (filter_none (fun c => platform c = "Coursera") cu),
          (filter_none (fun c => platform c = "Coursera") cy),
          (filter_none (fun c => platform c = "YouTube") cu),
          (filter_none (fun c => platform c = "YouTube") cc).
  - by rewrite !app_nil_r.
  - eapply Forall_impl; [exact Hc|]. intros c -> [=].
  - eapply Forall_impl; [exact Hu|]. intros c -> [=].
  - eapply Forall_impl; [exact Hy|]. intros c -> [=].
  - eapply Forall_impl; [exact Hu|]. intros c -> [=].
  - eapply Forall_impl; [exact Hy|]. intros c -> [=].
  - eapply Forall_impl; [exact Hc|]. intros c -> [=].
Qed.

Lemma display_courses_grouped_witness :
  [Course "[YouTube] B" "u2" "d2" "YouTube" "N/A";
   Course "[Udemy] A" "u1" "d1" "Udemy" "N/A"] <> [] /\
  page (display_courses
          [Course "[YouTube] B" "u2" "d2" "YouTube" "N/A";
           Course "[Udemy] A" "u1" "d1" "Udemy" "N/A"] initial_state)
  = [StMarkdown "### Udemy Courses";
     course_card (Course "[Udemy] A" "u1" "d1" "Udemy" "N/A");
     StMarkdown "### YouTube Courses";
     course_card (Course "[YouTube] B" "u2" "d2" "YouTube" "N/A")].
Proof.
  assert (H : [Course "[YouTube] B" "u2" "d2" "YouTube" "N/A";
               Course "[Udemy] A" "u1" "d1" "Udemy" "N/A"] <> []) by discriminate.
  split; [exact H|].
  rewrite (proj1 (proj2 (display_courses_grouped _ initial_state)) H).
  reflexivity.
Defined.

(** X16: a cycle whose completion succeeds but whose search fails at the
    first query, with nothing cached for the topic, still runs to its end:
    the page shows the plan sections in order, then the search error, then
    the notice that no course was found, then progress 100 and the feedback
    box (with the thanks inside it when a feedback was typed); the only
    query sent is the Udemy one, and the empty result is left, with the error
    recorded, in the outer cache only. *)
Theorem generatePlan_search_failure_page (tavily : tavily_client)
    (groq : groq_client) (request : plan_request) (feedback : string)
    (s : state) (learning_plan msg : string) :
  groq (completion_request (build_prompt request)) = inr learning_plan ->
  tavily (search_query "Udemy" (rq_topic request)) "advanced" 3%nat
  = SearchRaises msg ->
  search_cache s !! cache_key (rq_topic request) = None ->
  ~ within_cache_window (rq_topic request) s ->
  generatePlan tavily groq request feedback s
  = (inr (Plan (parse_plan learning_plan) []),
     State (search_cache s)
           (<[rq_topic request :=
                CacheEntry (clock s + 1) []
                  [StError ("Error searching for courses: " +:+ msg)]]>
              (cache_data_store s))
           (clock s + 1)
           (queries s ++ [search_query "Udemy" (rq_topic request)])
           (page s ++
            [StProgress 0; StProgress 30; StProgress 60;
             StSuccess "Your Personalized Learning Plan"] ++
            map render_section (parse_plan learning_plan) ++
            [StProgress 80; StWrite "---";
             StSubheader "📚 Recommended Online Courses";
             StError ("Error searching for courses: " +:+ msg);
             StInfo "No courses found at the moment. Try refining your search.";
             StProgress 100] ++
            feedback_elements feedback)).
Proof.
  intros Hok Hraise Hmiss Hout.
  unfold generatePlan, GroqLLM._call.
  fold (completion_request (build_prompt request)). rewrite Hok.
  rewrite render_sections_write_all, !emit_write_all, !write_all_app.
  set (els := [StProgress 0] ++ _).
  assert (Hout2 : ~ within_cache_window (rq_topic request) (write_all els s))
    by exact Hout.
  rewrite (search_courses_miss tavily (rq_topic request) _ Hout2).
  assert (Hbody : search_courses_body tavily (rq_topic request) (write_all els s)
                  = ([], time_sleep 1
                           (emit (search_error (UpstreamError msg))
                              (send_query (search_query "Udemy" (rq_topic request))
                                 (write_all els s))))).
  { apply (search_courses_body_except tavily _ _ _ _ []); [exact Hmiss|].
    unfold platforms. cbn [for_platforms]. by rewrite Hraise. }
  rewrite Hbody. cbn [fst snd display_courses].
  rewrite display_feedback_write_all. f_equal.
  assert (Hrec : drop (length (page (write_all els s)))
                   (page (time_sleep 1
                            (emit (search_error (UpstreamError msg))
                               (send_query
                                  (search_query "Udemy" (rq_topic request))
                                  (write_all els s)))))
                 = [search_error (UpstreamError msg)])
    by (simpl; apply drop_app_length).
  rewrite Hrec.
  unfold write_all, els. simpl. f_equal.
  rewrite <- !app_assoc. simpl. do 4 f_equal.
  rewrite <- !app_assoc. reflexivity.
Qed.

Lemma generatePlan_search_failure_page_witness :
  groq_two_weeks (completion_request (build_prompt sample_request))
  = inr ("Week 1: Goal A" +:+ LF +:+ "Week 2: Goal B") /\
  always_raises (search_query "Udemy" (rq_topic sample_request)) "advanced" 3%nat
  = SearchRaises "rate limit exceeded" /\
  search_cache initial_state !! cache_key (rq_topic sample_request) = None /\
  ~ within_cache_window (rq_topic sample_request) initial_state /\
  queries (generatePlan always_raises groq_two_weeks sample_request EmptyString
             initial_state).2
  = ["best Udemy courses for learning Python"].
Proof.
  assert (Hok : groq_two_weeks (completion_request (build_prompt sample_request))
                = inr ("Week 1: Goal A" +:+ LF +:+ "Week 2: Goal B"))
    by reflexivity.
  assert (Hr : always_raises (search_query "Udemy" (rq_topic sample_request))
                 "advanced" 3%nat = SearchRaises "rate limit exceeded")
    by reflexivity.
  assert (Hmiss : search_cache initial_state
                    !! cache_key (rq_topic sample_request) = None)
    by reflexivity.
  assert (Hout : ~ within_cache_window (rq_topic sample_request) initial_state)
    by (intros (entry & He & _); discriminate He).
  split; [exact Hok|]. split; [exact Hr|]. split; [exact Hmiss|].
  split; [exact Hout|].
  rewrite (generatePlan_search_failure_page always_raises groq_two_weeks
             sample_request EmptyString initial_state _ _ Hok Hr Hmiss Hout).
  reflexivity.
Defined.

(** ** What a search depends on *)

Lemma for_platforms_value (tavily : tavily_client) (topic : string)
    (ps : list string) (all_results : list course) (s s' : state) :
  (for_platforms tavily topic ps all_results s).1
  = (for_platforms tavily topic ps all_results s').1.
Proof.
  revert all_results s s'. induction ps as [|p ps IH]; intros acc s s'; [done|].
  simpl. destruct (tavily _ _ _) as [msg|results]; [done|].
  destruct (process_results p results acc) as [[e|] g]; [done|].
  apply IH.
Qed.

Lemma search_courses_body_value (tavily : tavily_client) (topic : string)
    (s s' : state) :
  search_cache s !! cache_key topic = search_cache s' !! cache_key topic ->
  (search_courses_body tavily topic s).1
  = (search_courses_body tavily topic s').1.
Proof.
  intros H. unfold search_courses_body. rewrite <- H.
  destruct (search_cache s !! cache_key topic) as [cached|]; [done|].
  pose proof (for_platforms_value tavily topic platforms [] s s') as Hv.
  destruct (for_platforms tavily topic platforms [] s) as [[o g] s1].
  destruct (for_platforms tavily topic platforms [] s') as [[o' g'] s1'].
  simpl in Hv. injection Hv as <- <-. by destruct o.
Qed.

(** X17: what a search returns depends only on the provider, on the clock
    and on the topic's own entries in the two cache layers: two states that
    agree on these give the same result, whatever their pages, their query
    logs and the entries of other topics. *)
Theorem search_courses_local (tavily : tavily_client) (topic : string)
    (s s' : state) :
  search_cache s !! cache_key topic = search_cache s' !! cache_key topic ->
  cache_data_store s !! topic = cache_data_store s' !! topic ->
  clock s = clock s' ->
  (search_courses tavily topic s).1 = (search_courses tavily topic s').1.
Proof.
  intros H1 H2 H3.
  pose proof (search_courses_body_value tavily topic s s' H1) as Hv.
  unfold search_courses, cache_data. rewrite <- H2, <- H3.
  destruct (search_courses_body tavily topic s) as [v s1].
  destruct (search_courses_body tavily topic s') as [v' s1'].
  simpl in Hv. subst v'.
  destruct (cache_data_store s !! topic) as [entry|]; [|done].
  by destruct (fresh 3600 (clock s) entry).
Qed.

Lemma search_courses_local_witness :
  search_cache initial_state !! cache_key "Python"
  = search_cache (search_courses always_answers "Rust" initial_state).2
      !! cache_key "Python" /\
  cache_data_store initial_state !! "Python"
  = cache_data_store (search_courses always_answers "Rust" initial_state).2
      !! "Python" /\
  clock initial_state
  = clock (search_courses always_answers "Rust" initial_state).2 /\
  (search_courses always_answers "Python" initial_state).1
  = (search_courses always_answers "Python"
       (search_courses always_answers "Rust" initial_state).2).1.
Proof.
  assert (H1 : search_cache initial_state !! cache_key "Python"
               = search_cache (search_courses always_answers "Rust" initial_state).2
                   !! cache_key "Python") by (vm_compute; reflexivity).
  assert (H2 : cache_data_store initial_state !! "Python"
               = cache_data_store (search_courses always_answers "Rust" initial_state).2
                   !! "Python") by (vm_compute; reflexivity).
  assert (H3 : clock initial_state
               = clock (search_courses always_answers "Rust" initial_state).2)
    by reflexivity.
  split; [exact H1|]. split; [exact H2|]. split; [exact H3|].
  exact (search_courses_local always_answers "Python" _ _ H1 H2 H3).
Defined.

(** ** Trimming *)

(** X18: the content of a section is the text after the first colon of its
    segment with whitespace removed at its two ends and nothing else: the
    segment reads label, colon, whitespace, content, whitespace, and the
    content neither starts nor ends with a whitespace character. Whitespace
    is what Python counts as such, the no-break space and the other Unicode
    spaces included. *)
Theorem parse_section_trims (section : string) (w : week_section) :
  parse_section section = Some w ->
  exists l r,
    section = week_num w +:+ ":" +:+ l +:+ week_content w +:+ r /\
    all_space l /\ all_space r /\
    (forall ws, ws ∈ Str.whitespace ->
                Str.startswith ws (week_content w) = false) /\
    (forall ws pre, ws ∈ Str.whitespace -> week_content w <> pre +:+ ws).
Proof.
  intros H.
  destruct (first_colon section) as [Hno|(label & body & -> & Hno)];
    [by rewrite (parse_section_no_colon section Hno) in H|].
  rewrite (parse_section_colon label body Hno) in H.
  destruct (Str.is_empty (Str.strip body)); [done|]. injection H as <-.
  cbn [week_num week_content]. unfold Str.strip.
  destruct (lstrip_decompose body) as (l & Hl & Hls).
  destruct (rstrip_decompose (Str.lstrip body)) as (r & Hr & Hrs).
  exists l, r. split; [by rewrite <- Hr, <- Hl|]. split; [done|]. split; [done|].
  split.
  - intros ws Hws. apply leading_space_None; [|done].
    apply (leading_space_prefix _ r). rewrite <- Hr. apply lstrip_leading.
  - intros ws pre Hws. by apply rstrip_trailing.
Qed.

Lemma parse_section_trims_witness :
  parse_section ("1:" +:+ NBSP +:+ " Goal A " +:+ LF)
  = Some (WeekSection "1" "Goal A") /\
  exists l r,
    "1:" +:+ NBSP +:+ " Goal A " +:+ LF = "1" +:+ ":" +:+ l +:+ "Goal A" +:+ r /\
    all_space l /\ all_space r.
Proof.
  assert (H : parse_section ("1:" +:+ NBSP +:+ " Goal A " +:+ LF)
              = Some (WeekSection "1" "Goal A")) by reflexivity.
  split; [exact H|].
  destruct (parse_section_trims _ _ H) as (l & r & H1 & H2 & H3 & _).
  exists l, r. split; [exact H1|]. split; [exact H2 | exact H3].
Defined.
